(** * SendaMeal product search: tool handlers and transport router

    A shallow embedding of [src/index.ts]: the four MCP tool handlers
    registered by [SendaMealMCP.init] and the [fetch] router of the
    default export, followed by the properties of the adapter's
    observable contract.

    The external search binding returns a value of TypeScript type
    [any]; the handlers probe it with property reads, [||] and template
    literals.  The embedding therefore starts with the fragment of
    JavaScript those expressions need. *)

From Stdlib Require Import String Ascii List ZArith Lia Bool DecimalString.
Import ListNotations.
Local Open Scope string_scope.
Set Warnings "-register-all".

(** ** JavaScript values and the operations the handlers use *)

Module Js.

(** Plain data: [undefined] and what a JSON document can hold.
    [JNum n] is the integer-valued number [n] with [|n| <= 2^53 - 1];
    a string is its sequence of code units, one [ascii] each; an
    object is the list of its own properties, keys pairwise distinct,
    with no accessor and no function-valued property. *)
Inductive value : Type :=
| JUndefined
| JNull
| JBool (b : bool)
| JNum (n : Z)
| JStr (s : string)
| JArr (elems : list value)
| JObj (props : list (string * value)).

(** The [TypeError]s the engine can raise while a handler runs. *)
Inductive type_error : Type :=
| ReadOfNullish (base : value) (prop : string)
| NotAFunction (callee : string)
| NoPrimitiveValue.

(** What a [catch] clause can receive: an error raised by the engine,
    or the reason the awaited promise was rejected with. *)
Inductive thrown : Type :=
| EngineError (k : type_error)
| Rejection (reason : value).

Inductive completion (A : Type) : Type :=
| Normal (a : A)
| Throw (t : thrown).

Arguments Normal {A} a.
Arguments Throw {A} t.

Definition cbind {A B : Type} (c : completion A) (k : A -> completion B)
  : completion B :=
  match c with
  | Normal a => k a
  | Throw t => Throw t
  end.

Declare Scope completion_scope.
Delimit Scope completion_scope with completion.
Notation "x <- c ;; k" := (cbind c (fun x => k))
  (at level 61, c at next level, right associativity) : completion_scope.

Definition dquote : string := String "034" EmptyString.
Definition nl : string := String "010" EmptyString.

(** ToBoolean. *)
Definition truthy (v : value) : bool :=
  match v with
  | JUndefined | JNull => false
  | JBool b => b
  | JNum n => negb (n =? 0)%Z
  | JStr s => negb (s =? EmptyString)
  | JArr _ | JObj _ => true
  end.

(** [a || b]. *)
Definition or_else (a b : value) : value := if truthy a then a else b.

Fixpoint own (props : list (string * value)) (name : string) : option value :=
  match props with
  | [] => None
  | (k, v) :: rest => if k =? name then Some v else own rest name
  end.

(** [base.name], for the property names the handlers read: [results],
    [length], [title], [url], [snippet], [content] and [message].
    None of them is inherited from the prototype of an object, an
    array, a string, a number or a boolean, and [length] is an own
    property of arrays and strings. *)
Definition get (base : value) (name : string) : completion value :=
  match base with
  | JUndefined | JNull => Throw (EngineError (ReadOfNullish base name))
  | JBool _ | JNum _ => Normal JUndefined
  | JStr s =>
      Normal (if name =? "length" then JNum (Z.of_nat (String.length s))
              else JUndefined)
  | JArr elems =>
      Normal (if name =? "length" then JNum (Z.of_nat (List.length elems))
              else JUndefined)
  | JObj props =>
      Normal (match own props name with Some v => v | None => JUndefined end)
  end.

(** Decimal numerals: Number::toString on the integers of the model. *)
Definition nat_to_string (n : nat) : string :=
  NilZero.string_of_uint (Nat.to_uint n).

(** [base[i]] for a literal index [i]: an element of an array, a
    one-unit string of a string, the own property named by the decimal
    numeral of an object. *)
Definition get_index (base : value) (i : nat) : completion value :=
  match base with
  | JUndefined | JNull =>
      Throw (EngineError (ReadOfNullish base (nat_to_string i)))
  | JBool _ | JNum _ => Normal JUndefined
  | JStr s =>
      Normal (match String.get i s with
              | Some c => JStr (String c EmptyString)
              | None => JUndefined
              end)
  | JArr elems => Normal (nth i elems JUndefined)
  | JObj props =>
      Normal (match own props (nat_to_string i) with
              | Some v => v
              | None => JUndefined
              end)
  end.

(** [a === b] where [b] is a number literal. *)
Definition strict_equals_num (a : value) (b : Z) : bool :=
  match a with
  | JNum n => (n =? b)%Z
  | _ => false
  end.

Definition num_to_string (n : Z) : string :=
  if (n <? 0)%Z then "-" ++ nat_to_string (Z.to_nat (- n))
  else nat_to_string (Z.to_nat n).

(** ToString, as a template literal applies it to a substitution.
    An array is joined with commas, [undefined] and [null] elements
    giving the empty string; an object gives ["[object Object]"]
    through [Object.prototype.toString], unless an own data property
    [toString] shadows it, in which case no primitive value is found. *)
Fixpoint to_string (v : value) : completion string :=
  match v with
  | JUndefined => Normal "undefined"
  | JNull => Normal "null"
  | JBool b => Normal (if b then "true" else "false")
  | JNum n => Normal (num_to_string n)
  | JStr s => Normal s
  | JArr elems =>
      (fix join_elems (l : list value) : completion string :=
         match l with
         | [] => Normal EmptyString
         | x :: rest =>
             cbind (match x with
                    | JUndefined | JNull => Normal EmptyString
                    | _ => to_string x
                    end)
               (fun s =>
                  match rest with
                  | [] => Normal s
                  | _ :: _ => cbind (join_elems rest)
                                (fun r => Normal (s ++ "," ++ r))
                  end)
         end) elems
  | JObj props =>
      match own props "toString" with
      | Some _ => Throw (EngineError NoPrimitiveValue)
      | None => Normal "[object Object]"
      end
  end.

(** [Array.prototype.map] with a callback that may throw; the callback
    receives the element and its index. *)
Fixpoint map_from {A : Type} (start : nat)
  (callback : value -> nat -> completion A) (l : list value)
  : completion (list A) :=
  match l with
  | [] => Normal []
  | x :: rest =>
      cbind (callback x start)
        (fun y => cbind (map_from (S start) callback rest)
                    (fun ys => Normal (y :: ys)))
  end.

(** [receiver.map(callback)]: only an array has a callable [map];
    [callee] is the source text of the callee expression. *)
Definition call_map {A : Type} (callee : string) (receiver : value)
  (callback : value -> nat -> completion A) : completion (list A) :=
  match receiver with
  | JArr elems => map_from 0 callback elems
  | _ => Throw (EngineError (NotAFunction callee))
  end.

(** [strings.join(separator)]. *)
Definition join (separator : string) (strings : list string) : string :=
  String.concat separator strings.

(** An optional string parameter as the value the handler sees. *)
Definition optional (o : option string) : value :=
  match o with
  | Some s => JStr s
  | None => JUndefined
  end.

(** An optional string parameter inside a template literal. *)
Definition show (o : option string) : string :=
  match o with
  | Some s => s
  | None => "undefined"
  end.

End Js.

Import Js.

(** ** The external search capability and the handler monad *)

(** The object literal passed to [this.env.AI.autorag]. *)
Record search_request : Type := {
  index : string;
  query : string;
  maxResults : Z
}.

(** How the promise returned by the capability settles. *)
Inductive settled : Type :=
| Resolved (v : value)
| Rejected (reason : value).

(** What a handler runs against: the [AI] binding of [Env], and the
    message text the engine gives each [TypeError] it raises, which is
    implementation-defined. *)
Record runtime : Type := {
  autorag : search_request -> settled;
  type_error_message : type_error -> string
}.

(** A handler reads the runtime, records the requests it sends to the
    capability, and completes normally or abruptly. *)
Definition handler (A : Type) : Type :=
  runtime -> list search_request * completion A.

Definition ret {A : Type} (a : A) : handler A :=
  fun _ => ([], Normal a).

Definition bind {A B : Type} (m : handler A) (k : A -> handler B)
  : handler B :=
  fun rt =>
    match m rt with
    | (sent, Normal a) => let (sent', r) := k a rt in ((sent ++ sent')%list, r)
    | (sent, Throw t) => (sent, Throw t)
    end.

Definition lift {A : Type} (c : completion A) : handler A :=
  fun _ => ([], c).

(** [try { body } catch (error) { clause }]. *)
Definition try_catch {A : Type} (body : handler A)
  (clause : thrown -> handler A) : handler A :=
  fun rt =>
    match body rt with
    | (sent, Normal a) => (sent, Normal a)
    | (sent, Throw t) => let (sent', r) := clause t rt in ((sent ++ sent')%list, r)
    end.

(** [await this.env.AI.autorag(request)]. *)
Definition await_autorag (request : search_request) : handler value :=
  fun rt =>
    ([request],
     match autorag rt request with
     | Resolved v => Normal v
     | Rejected reason => Throw (Rejection reason)
     end).

(** [error.message] in a [catch] clause. *)
Definition error_message (error : thrown) : handler value :=
  fun rt =>
    match error with
    | EngineError k => ([], Normal (JStr (type_error_message rt k)))
    | Rejection reason => ([], get reason "message")
    end.

Declare Scope handler_scope.
Delimit Scope handler_scope with handler.
Notation "x <- c ;; k" := (bind c (fun x => k))
  (at level 61, c at next level, right associativity) : handler_scope.

(** ** Tool responses *)

Record content_block : Type := {
  type : string;
  text : string
}.

Record tool_response : Type := {
  content : list content_block
}.

(** [{ content: [{ type: "text", text: t }] }]. *)
Definition text_response (t : string) : tool_response :=
  {| content := [ {| type := "text"; text := t |} ] |}.

(** ** The four tool handlers *)

(** [!results || !results.results || results.results.length === 0],
    the test all four handlers apply to the awaited value. *)
Definition no_results (results : value) : completion bool :=
  (if negb (truthy results) then Normal true
   else
     r <- get results "results" ;;
     if negb (truthy r) then Normal true
     else
       r' <- get results "results" ;;
       len <- get r' "length" ;;
       Normal (strict_equals_num len 0))%completion.

Module Callback.
Local Open Scope completion_scope.

(** The arrow function mapped over [results.results] by
    [search_products] (lines 44-46). *)
Definition search_products (item : value) (index : nat)
  : completion string :=
  let n := nat_to_string (index + 1) in
  title <- get item "title" ;;
  title' <- to_string (or_else title (JStr "Untitled")) ;;
  url <- get item "url" ;;
  url' <- to_string (or_else url (JStr "N/A")) ;;
  snippet <- get item "snippet" ;;
  snippet' <- to_string (or_else snippet (JStr "No description available")) ;;
  Normal (n ++ ". " ++ title' ++ nl ++ "   URL: " ++ url' ++ nl
            ++ "   " ++ snippet').

(** The arrow function of [find_dietary_options] (lines 137-139). *)
Definition find_dietary_options (item : value) (index : nat)
  : completion string :=
  let n := nat_to_string (index + 1) in
  title <- get item "title" ;;
  title' <- to_string (or_else title (JStr "Untitled")) ;;
  url <- get item "url" ;;
  url' <- to_string (or_else url (JStr "N/A")) ;;
  Normal (n ++ ". " ++ title' ++ nl ++ "   " ++ url').

(** The arrow function of [get_recommendations] (lines 187-189). *)
Definition get_recommendations (item : value) (index : nat)
  : completion string :=
  let n := nat_to_string (index + 1) in
  title <- get item "title" ;;
  title' <- to_string (or_else title (JStr "Untitled")) ;;
  url <- get item "url" ;;
  url' <- to_string (or_else url (JStr "N/A")) ;;
  snippet <- get item "snippet" ;;
  snippet' <- to_string (or_else snippet (JStr EmptyString)) ;;
  Normal (n ++ ". " ++ title' ++ nl ++ "   " ++ url' ++ nl
            ++ "   " ++ snippet').

(** The template literal bound to [details] in [get_product_details]
    (line 89). *)
Definition details (product : value) : completion string :=
  title <- get product "title" ;;
  title' <- to_string (or_else title (JStr "Untitled")) ;;
  url <- get product "url" ;;
  url' <- to_string (or_else url (JStr "N/A")) ;;
  content <- get product "content" ;;
  description <-
    (if truthy content then Normal content
     else
       snippet <- get product "snippet" ;;
       Normal (or_else snippet (JStr "No description available"))) ;;
  description' <- to_string description ;;
  Normal ("Product: " ++ title' ++ nl ++ "URL: " ++ url' ++ nl ++ nl
            ++ "Description:" ++ nl ++ description').

End Callback.

Local Open Scope handler_scope.

(** The shared [catch] clause: one text block made of the tool's
    prefix and [error.message]. *)
Definition report (prefix : string) (error : thrown)
  : handler tool_response :=
  message <- error_message error ;;
  message' <- lift (to_string message) ;;
  ret (text_response (prefix ++ message')).

Definition search_products (query : string) (max_results : Z)
  : handler tool_response :=
  try_catch
    (results <- await_autorag {| index := "cool-bush-e0f4";
                                 query := query;
                                 maxResults := max_results |} ;;
     none <- lift (no_results results) ;;
     if (none : bool) then
       ret (text_response
              ("No products found for query: " ++ dquote ++ query ++ dquote))
     else
       rows <- lift (get results "results") ;;
       lines <- lift (call_map "results.results.map" rows
                        Callback.search_products) ;;
       let formattedResults := join (nl ++ nl) lines in
       length <- lift (get rows "length") ;;
       length' <- lift (to_string length) ;;
       ret (text_response
              ("Found " ++ length' ++ " products:" ++ nl ++ nl
                 ++ formattedResults)))
    (report "Error searching products: ").

Definition get_product_details (product_name : string)
  : handler tool_response :=
  try_catch
    (results <- await_autorag {| index := "cool-bush-e0f4";
                                 query := product_name;
                                 maxResults := 3 |} ;;
     none <- lift (no_results results) ;;
     if (none : bool) then
       ret (text_response
              ("Product not found: " ++ dquote ++ product_name ++ dquote))
     else
       rows <- lift (get results "results") ;;
       product <- lift (get_index rows 0) ;;
       details <- lift (Callback.details product) ;;
       ret (text_response details))
    (report "Error fetching product details: ").

Definition find_dietary_options (dietary_restriction : string)
  (meal_type : option string) : handler tool_response :=
  try_catch
    (let query := dietary_restriction in
     let query :=
       if truthy (optional meal_type) then query ++ " " ++ show meal_type
       else query in
     results <- await_autorag {| index := "cool-bush-e0f4";
                                 query := query;
                                 maxResults := 10 |} ;;
     let suffix :=
       if truthy (optional meal_type) then " for " ++ show meal_type
       else EmptyString in
     none <- lift (no_results results) ;;
     if (none : bool) then
       ret (text_response
              ("No " ++ dietary_restriction ++ " products found" ++ suffix))
     else
       rows <- lift (get results "results") ;;
       lines <- lift (call_map "results.results.map" rows
                        Callback.find_dietary_options) ;;
       let formattedResults := join (nl ++ nl) lines in
       length <- lift (get rows "length") ;;
       length' <- lift (to_string length) ;;
       ret (text_response
              ("Found " ++ length' ++ " " ++ dietary_restriction
                 ++ " products" ++ suffix ++ ":" ++ nl ++ nl
                 ++ formattedResults)))
    (report "Error finding dietary options: ").

Definition get_recommendations (occasion : string)
  (preferences : option string) : handler tool_response :=
  try_catch
    (let query := occasion ++ " gift meal" in
     let query :=
       if truthy (optional preferences) then query ++ " " ++ show preferences
       else query in
     results <- await_autorag {| index := "cool-bush-e0f4";
                                 query := query;
                                 maxResults := 5 |} ;;
     none <- lift (no_results results) ;;
     if (none : bool) then
       ret (text_response ("No recommendations found for " ++ occasion))
     else
       rows <- lift (get results "results") ;;
       lines <- lift (call_map "results.results.map" rows
                        Callback.get_recommendations) ;;
       let formattedResults := join (nl ++ nl) lines in
       let suffix :=
         if truthy (optional preferences)
         then " (" ++ show preferences ++ ")"
         else EmptyString in
       ret (text_response
              ("Top recommendations for " ++ occasion ++ suffix ++ ":"
                 ++ nl ++ nl ++ formattedResults)))
    (report "Error getting recommendations: ").

(** ** The tool registry *)

(** A call that passed the schema of its tool ([server.tool(name,
    schema, handler)]): the required strings are present, an optional
    parameter may be omitted.  [max_results] is a number of the model,
    hence an integer; the handler forwards it untouched. *)
Inductive tool_call : Type :=
| SearchProducts (query : string) (max_results : option Z)
| GetProductDetails (product_name : string)
| FindDietaryOptions (dietary_restriction : string)
    (meal_type : option string)
| GetRecommendations (occasion : string) (preferences : option string).

Definition tool_name (call : tool_call) : string :=
  match call with
  | SearchProducts _ _ => "search_products"
  | GetProductDetails _ => "get_product_details"
  | FindDietaryOptions _ _ => "find_dietary_options"
  | GetRecommendations _ _ => "get_recommendations"
  end.

(** [z.number().optional().default(d)]. *)
Definition optional_default (d : Z) (supplied : option Z) : Z :=
  match supplied with
  | Some n => n
  | None => d
  end.

(** The schema layer hands the parsed arguments to the handler. *)
Definition invoke (call : tool_call) : handler tool_response :=
  match call with
  | SearchProducts query max_results =>
      search_products query (optional_default 10 max_results)
  | GetProductDetails product_name => get_product_details product_name
  | FindDietaryOptions dietary_restriction meal_type =>
      find_dietary_options dietary_restriction meal_type
  | GetRecommendations occasion preferences =>
      get_recommendations occasion preferences
  end.

(** ** The transport router *)

Module Http.

Definition lower (c : ascii) : ascii :=
  let n := nat_of_ascii c in
  if (65 <=? n)%nat && (n <=? 90)%nat then ascii_of_nat (n + 32) else c.

Fixpoint lowercase (s : string) : string :=
  match s with
  | EmptyString => EmptyString
  | String c rest => String (lower c) (lowercase rest)
  end.

Fixpoint lookup (name : string) (l : list (string * string))
  : option string :=
  match l with
  | [] => None
  | (k, v) :: rest => if k =? name then Some v else lookup name rest
  end.

(** A [Response]: header names are kept in lower case, as the
    [Headers] class normalises them; [body] is [None] for a null
    body. *)
Record response : Type := {
  status : Z;
  headers : list (string * string);
  body : option string
}.

(** [response.headers.get(name)]. *)
Definition header (r : response) (name : string) : option string :=
  lookup (lowercase name) (headers r).

(** [new Response(body, { status, headers })]: the status defaults to
    200, and a string body brings the content type
    [text/plain;charset=UTF-8] unless the init names one. *)
Definition new_Response (body : option string) (init_status : option Z)
  (init_headers : list (string * string)) : response :=
  let given := map (fun kv => (lowercase (fst kv), snd kv)) init_headers in
  {| status := match init_status with Some s => s | None => 200 end;
     headers :=
       match body, lookup "content-type" given with
       | Some _, None => given ++ [("content-type", "text/plain;charset=UTF-8")]
       | _, _ => given
       end;
     body := body |}.

Definition hex_digit (n : nat) : ascii :=
  nth n ["0"; "1"; "2"; "3"; "4"; "5"; "6"; "7"; "8"; "9";
         "a"; "b"; "c"; "d"; "e"; "f"]%char "0"%char.

(** One code unit inside a JSON string literal. *)
Definition escape (c : ascii) : string :=
  let n := nat_of_ascii c in
  if (n =? 34)%nat then "\" ++ dquote
  else if (n =? 92)%nat then "\\"
  else if (n =? 8)%nat then "\b"
  else if (n =? 9)%nat then "\t"
  else if (n =? 10)%nat then "\n"
  else if (n =? 12)%nat then "\f"
  else if (n =? 13)%nat then "\r"
  else if (n <? 32)%nat then
    "\u00" ++ String (hex_digit (n / 16)) (String (hex_digit (n mod 16))
                                             EmptyString)
  else String c EmptyString.

Fixpoint escape_all (s : string) : string :=
  match s with
  | EmptyString => EmptyString
  | String c rest => escape c ++ escape_all rest
  end.

Definition quote (s : string) : string := dquote ++ escape_all s ++ dquote.

(** [JSON.stringify(v)] with no replacer and no indentation; [None]
    stands for the result [undefined].  A property whose value gives
    [undefined] is left out, an array element that does becomes
    [null]. *)
Fixpoint JSON_stringify (v : value) : option string :=
  match v with
  | JUndefined => None
  | JNull => Some "null"
  | JBool b => Some (if b then "true" else "false")
  | JNum n => Some (num_to_string n)
  | JStr s => Some (quote s)
  | JArr elems =>
      Some ("[" ++ String.concat ","
                     (map (fun e => match JSON_stringify e with
                                    | Some t => t
                                    | None => "null"
                                    end) elems)
                ++ "]")
  | JObj props =>
      Some ("{" ++ String.concat ","
                     (flat_map (fun kv => match JSON_stringify (snd kv) with
                                          | Some t => [quote (fst kv) ++ ":" ++ t]
                                          | None => []
                                          end) props)
                ++ "}")
  end.

End Http.

Import Http.

(** The object literal serialised by the health-check branch. *)
Definition status_document : value :=
  JObj [("name", JStr "SendaMeal MCP Server");
        ("version", JStr "1.0.0");
        ("status", JStr "healthy");
        ("endpoints", JObj [("sse", JStr "/sse"); ("mcp", JStr "/mcp")])].

(** Where [fetch] sends a request: to one of the two transports of the
    agent, mounted at a base path, or to a response of its own. *)
Inductive routed : Type :=
| ServeSSE (mount : string)
| Serve (mount : string)
| Reply (r : response).

(** [fetch], as a function of [new URL(request.url).pathname]. *)
Definition fetch (pathname : string) : routed :=
  if (pathname =? "/sse") || (pathname =? "/sse/message") then
    ServeSSE "/sse"
  else if pathname =? "/mcp" then
    Serve "/mcp"
  else if (pathname =? "/") || (pathname =? "/health") then
    Reply (new_Response (JSON_stringify status_document) None
             [("Content-Type", "application/json")])
  else
    Reply (new_Response (Some "Not found") (Some 404%Z) []).

(** ** The documented shape of a search hit *)

Module Item.

(** A Search Result Item: every field a string or absent. *)
Record t : Type := {
  title : option string;
  url : option string;
  snippet : option string;
  content : option string
}.

Definition prop (name : string) (field : option string)
  : list (string * value) :=
  match field with
  | Some s => [(name, JStr s)]
  | None => []
  end.

(** The item as the object the capability returns. *)
Definition to_value (i : t) : value :=
  JObj (prop "title" (title i) ++ prop "url" (url i)
          ++ prop "snippet" (snippet i) ++ prop "content" (content i))%list.

(** What is shown for a field: its text, or the placeholder when it is
    absent or empty. *)
Definition shown (field : option string) (placeholder : string) : string :=
  match field with
  | Some s => if s =? EmptyString then placeholder else s
  | None => placeholder
  end.

End Item.

(** A Search Response carrying the given hits, in order. *)
Definition search_response (items : list Item.t) : value :=
  JObj [("results", JArr (map Item.to_value items))].

(** The lines of a numbered listing, the first numbered [start + 1]. *)
Fixpoint numbered (start : nat) (line : nat -> Item.t -> string)
  (items : list Item.t) : list string :=
  match items with
  | [] => []
  | i :: rest => line (start + 1) i :: numbered (S start) line rest
  end.

(** A runtime whose capability settles the same way on every request. *)
Definition always (outcome : settled) (messages : type_error -> string)
  : runtime :=
  {| autorag := fun _ => outcome; type_error_message := messages |}.

(** Some message wording for the engine's [TypeError]s. *)
Definition plain_messages (k : type_error) : string :=
  match k with
  | ReadOfNullish _ prop => "Cannot read property " ++ prop
  | NotAFunction callee => callee ++ " is not a function"
  | NoPrimitiveValue => "Cannot convert object to primitive value"
  end.

(** ** What the documented templates say *)

Module Template.

Definition product_line (n : nat) (i : Item.t) : string :=
  nat_to_string n ++ ". " ++ Item.shown (Item.title i) "Untitled" ++ nl
    ++ "   URL: " ++ Item.shown (Item.url i) "N/A" ++ nl
    ++ "   " ++ Item.shown (Item.snippet i) "No description available".

Definition dietary_line (n : nat) (i : Item.t) : string :=
  nat_to_string n ++ ". " ++ Item.shown (Item.title i) "Untitled" ++ nl
    ++ "   " ++ Item.shown (Item.url i) "N/A".

(** The third line of a recommendation falls back to [fallback]. *)
Definition recommendation_line (fallback : string) (n : nat) (i : Item.t)
  : string :=
  nat_to_string n ++ ". " ++ Item.shown (Item.title i) "Untitled" ++ nl
    ++ "   " ++ Item.shown (Item.url i) "N/A" ++ nl
    ++ "   " ++ Item.shown (Item.snippet i) fallback.

Definition detail (i : Item.t) : string :=
  "Product: " ++ Item.shown (Item.title i) "Untitled" ++ nl
    ++ "URL: " ++ Item.shown (Item.url i) "N/A" ++ nl ++ nl
    ++ "Description:" ++ nl
    ++ Item.shown (Item.content i)
         (Item.shown (Item.snippet i) "No description available").

Definition listing (line : nat -> Item.t -> string) (items : list Item.t)
  : string :=
  join (nl ++ nl) (numbered 0 line items).

End Template.

(** A rejection reason is an error when its [message] can be read and
    put into a template literal. *)
Definition carries_message (reason : value) : bool :=
  match get reason "message" with
  | Normal m =>
      match to_string m with
      | Normal _ => true
      | Throw _ => false
      end
  | Throw _ => false
  end.

(** The capability of a runtime only ever rejects with an error. *)
Definition rejects_with_errors (rt : runtime) : Prop :=
  forall request reason,
    autorag rt request = Rejected reason -> carries_message reason = true.

(** A pure step never throws a rejection reason: that only comes out
    of the awaited promise. *)
Definition engine_only {A : Type} (c : completion A) : Prop :=
  match c with
  | Throw (Rejection _) => False
  | _ => True
  end.

(** What the steps after the awaited call may do: send nothing more,
    and either answer with one text block or throw an engine error
    into the [catch] clause. *)
Definition settles (r : list search_request * completion tool_response)
  : Prop :=
  fst r = [] /\
  match snd r with
  | Normal resp => exists t, resp = text_response t
  | Throw (EngineError _) => True
  | Throw (Rejection _) => False
  end.

(** A resolved value with nothing to show: the response is missing,
    its [results] field is missing, or [results] is an empty
    sequence. *)
Definition without_results (v : value) : bool :=
  match v with
  | JUndefined | JNull => true
  | JObj props =>
      match own props "results" with
      | None | Some JUndefined | Some JNull | Some (JArr []) => true
      | Some _ => false
      end
  | _ => false
  end.

(** The hit none of whose fields is present. *)
Definition bare_item : Item.t :=
  {| Item.title := None; Item.url := None;
     Item.snippet := None; Item.content := None |}.

(** ** The handlers, tool by tool *)

(** The one request a call sends. *)
Definition request_of (call : tool_call) : search_request :=
  match call with
  | SearchProducts query max_results =>
      {| index := "cool-bush-e0f4"; query := query;
         maxResults := optional_default 10 max_results |}
  | GetProductDetails product_name =>
      {| index := "cool-bush-e0f4"; query := product_name; maxResults := 3 |}
  | FindDietaryOptions dietary_restriction meal_type =>
      {| index := "cool-bush-e0f4";
         query := if truthy (optional meal_type)
                  then dietary_restriction ++ " " ++ show meal_type
                  else dietary_restriction;
         maxResults := 10 |}
  | GetRecommendations occasion preferences =>
      {| index := "cool-bush-e0f4";
         query := if truthy (optional preferences)
                  then (occasion ++ " gift meal") ++ " " ++ show preferences
                  else occasion ++ " gift meal";
         maxResults := 5 |}
  end.

(** The text in front of [error.message] in the tool's [catch]
    clause. *)
Definition error_prefix (call : tool_call) : string :=
  match call with
  | SearchProducts _ _ => "Error searching products: "
  | GetProductDetails _ => "Error fetching product details: "
  | FindDietaryOptions _ _ => "Error finding dietary options: "
  | GetRecommendations _ _ => "Error getting recommendations: "
  end.

(** A step of a handler that consults nothing: it sends no request and
    completes the same way on every runtime, with one text block or
    with an engine error. *)
Definition pure_step (h : handler tool_response) : Prop :=
  exists c : completion tool_response,
    (forall rt, h rt = ([], c))
    /\ match c with
       | Normal resp => exists t, resp = text_response t
       | Throw (EngineError _) => True
       | Throw (Rejection _) => False
       end.

(** ** The schema layer *)

Module Zod.

(** The schemas the tools are declared with: [z.string()],
    [z.number()], [.optional()] and [.default(d)]. *)
Inductive schema : Type :=
| ZString
| ZNumber
| ZOptional (inner : schema)
| ZDefault (inner : schema) (d : value).

(** Parsing one value: [None] when the schema rejects it.  An optional
    schema lets [undefined] through; a default replaces [undefined]
    before the inner schema sees it. *)
Fixpoint parse (s : schema) (input : value) : option value :=
  match s with
  | ZString => match input with JStr _ => Some input | _ => None end
  | ZNumber => match input with JNum _ => Some input | _ => None end
  | ZOptional inner =>
      match input with
      | JUndefined => Some JUndefined
      | _ => parse inner input
      end
  | ZDefault inner d =>
      match input with
      | JUndefined => parse inner d
      | _ => parse inner input
      end
  end.

(** [data[key]] of the object being parsed. *)
Definition field (props : list (string * value)) (key : string) : value :=
  match own props key with
  | Some v => v
  | None => JUndefined
  end.

(** The keys of the shape, each parsed from the like-named property;
    properties the shape does not name are dropped. *)
Fixpoint parse_shape (shape : list (string * schema))
  (props : list (string * value)) : option (list (string * value)) :=
  match shape with
  | [] => Some []
  | (key, s) :: rest =>
      match parse s (field props key), parse_shape rest props with
      | Some v, Some vs => Some ((key, v) :: vs)
      | _, _ => None
      end
  end.

(** [z.object(shape)]: only an object is parsed. *)
Definition parse_object (shape : list (string * schema)) (input : value)
  : option (list (string * value)) :=
  match input with
  | JObj props => parse_shape shape props
  | _ => None
  end.

End Zod.

Module Mcp.

Import Zod.

(** What [this.server.tool(name, shape, handler)] registers.  [handle]
    is the handler applied to the parsed arguments it destructures. *)
Record tool : Type := {
  name : string;
  shape : list (string * schema);
  handle : list (string * value) -> option (handler tool_response)
}.

(** The four registrations of [init], in order. *)
Definition tools : list tool :=
  [ {| name := "search_products";
       shape := [ ("query", ZString);
                  ("max_results", ZDefault (ZOptional ZNumber) (JNum 10)) ];
       handle := fun args =>
         match field args "query", field args "max_results" with
         | JStr query, JNum max_results =>
             Some (search_products query max_results)
         | _, _ => None
         end |};
    {| name := "get_product_details";
       shape := [ ("product_name", ZString) ];
       handle := fun args =>
         match field args "product_name" with
         | JStr product_name => Some (get_product_details product_name)
         | _ => None
         end |};
    {| name := "find_dietary_options";
       shape := [ ("dietary_restriction", ZString);
                  ("meal_type", ZOptional ZString) ];
       handle := fun args =>
         match field args "dietary_restriction", field args "meal_type" with
         | JStr dietary_restriction, JStr meal_type =>
             Some (find_dietary_options dietary_restriction (Some meal_type))
         | JStr dietary_restriction, JUndefined =>
             Some (find_dietary_options dietary_restriction None)
         | _, _ => None
         end |};
    {| name := "get_recommendations";
       shape := [ ("occasion", ZString); ("preferences", ZOptional ZString) ];
       handle := fun args =>
         match field args "occasion", field args "preferences" with
         | JStr occasion, JStr preferences =>
             Some (get_recommendations occasion (Some preferences))
         | JStr occasion, JUndefined =>
             Some (get_recommendations occasion None)
         | _, _ => None
         end |} ].

(** What becomes of a request to call a tool. *)
Inductive outcome : Type :=
| NoSuchTool
| InvalidArguments
| Run (h : handler tool_response).

(** The tool registered under the name, given the arguments its schema
    makes of the ones received; the handler does not run when no tool
    has the name or the schema rejects the arguments. *)
Definition call_tool (tool_name : string) (arguments : value) : outcome :=
  match find (fun t => name t =? tool_name) tools with
  | None => NoSuchTool
  | Some t =>
      match parse_object (shape t) arguments with
      | None => InvalidArguments
      | Some args =>
          match handle t args with
          | Some h => Run h
          | None => InvalidArguments
          end
      end
  end.

(** The parameter names of the four schemas. *)
Definition parameter_names : list string :=
  flat_map (fun t => map fst (shape t)) tools.

Definition optional_number (key : string) (o : option Z)
  : list (string * value) :=
  match o with
  | Some n => [(key, JNum n)]
  | None => []
  end.

(** The arguments object a client sends for a call, omitted parameters
    left out. *)
Definition arguments_of (call : tool_call) : value :=
  match call with
  | SearchProducts query max_results =>
      JObj (("query", JStr query) :: optional_number "max_results" max_results)
  | GetProductDetails product_name =>
      JObj [("product_name", JStr product_name)]
  | FindDietaryOptions dietary_restriction meal_type =>
      JObj (("dietary_restriction", JStr dietary_restriction)
              :: Item.prop "meal_type" meal_type)
  | GetRecommendations occasion preferences =>
      JObj (("occasion", JStr occasion) :: Item.prop "preferences" preferences)
  end.

End Mcp.

(** * Properties *)

(** ** The JavaScript fragment *)

Lemma value_nested_ind (P : value -> Prop) :
  P JUndefined -> P JNull ->
  (forall b, P (JBool b)) -> (forall n, P (JNum n)) -> (forall s, P (JStr s)) ->
  (forall elems, Forall P elems -> P (JArr elems)) ->
  (forall props, P (JObj props)) ->
  forall v, P v.
Proof.
  intros Hu Hn Hb Hz Hs Ha Ho.
  fix IH 1.
  intros [ | | b | n | s | elems | props ];
    [ exact Hu | exact Hn | apply Hb | apply Hz | apply Hs | | apply Ho ].
  apply Ha. induction elems as [ | x rest IHrest ]; constructor.
  - apply IH.
  - exact IHrest.
Qed.

Lemma to_string_engine_only v : engine_only (to_string v).
Proof.
  induction v as [ | | b | n | s | elems IH | props ] using value_nested_ind;
    simpl; auto.
  - induction IH as [ | x rest Hx _ IHrest ]; simpl; auto.
    assert (Hx' : engine_only
                    (match x with
                     | JUndefined | JNull => Normal EmptyString
                     | _ => to_string x
                     end)) by (destruct x; simpl; auto).
    destruct (match x with
              | JUndefined | JNull => Normal EmptyString
              | _ => to_string x
              end) as [ s | [ k | r ] ]; simpl in *; auto.
    destruct rest as [ | y rest' ]; simpl; auto.
    match goal with
    | |- engine_only (cbind ?c _) =>
        destruct c as [ s' | [ k | r ] ]; simpl in *; auto
    end.
  - destruct (own props "toString"); simpl; auto.
Qed.

Lemma get_engine_only base name : engine_only (get base name).
Proof. destruct base; simpl; auto. Qed.

Lemma get_index_engine_only base i : engine_only (get_index base i).
Proof. destruct base; simpl; auto. Qed.

Lemma cbind_engine_only {A B : Type} (c : completion A)
  (k : A -> completion B) :
  engine_only c -> (forall a, engine_only (k a)) -> engine_only (cbind c k).
Proof. destruct c as [ a | [ e | r ] ]; simpl; auto. Qed.

Lemma map_from_engine_only {A : Type} (f : value -> nat -> completion A) l :
  (forall x i, engine_only (f x i)) ->
  forall start, engine_only (map_from start f l).
Proof.
  intros Hf. induction l as [ | x rest IH ]; intros start; simpl; auto.
  apply cbind_engine_only; auto. intros y.
  apply cbind_engine_only; simpl; auto.
Qed.

Lemma call_map_engine_only {A : Type} callee receiver
  (f : value -> nat -> completion A) :
  (forall x i, engine_only (f x i)) -> engine_only (call_map callee receiver f).
Proof.
  intros Hf. destruct receiver; simpl; auto.
  apply map_from_engine_only; auto.
Qed.

Lemma no_results_engine_only results : engine_only (no_results results).
Proof.
  unfold no_results. destruct (negb (truthy results)); simpl; auto.
  apply cbind_engine_only; [ apply get_engine_only | intros r ].
  destruct (negb (truthy r)); simpl; auto.
  apply cbind_engine_only; [ apply get_engine_only | intros r' ].
  apply cbind_engine_only; [ apply get_engine_only | intros len ].
  simpl; auto.
Qed.

Create HintDb js_pure.
#[local] Hint Resolve to_string_engine_only get_engine_only
  get_index_engine_only no_results_engine_only : js_pure.

Ltac pure_steps :=
  repeat match goal with
    | |- engine_only (cbind _ _) => apply cbind_engine_only; [ | intro ]
    | |- engine_only (if ?b then _ else _) => destruct b
    | |- _ => solve [ simpl; auto with js_pure ]
    end.

Lemma search_products_callback_engine_only item i :
  engine_only (Callback.search_products item i).
Proof. unfold Callback.search_products. pure_steps. Qed.

Lemma find_dietary_options_callback_engine_only item i :
  engine_only (Callback.find_dietary_options item i).
Proof. unfold Callback.find_dietary_options. pure_steps. Qed.

Lemma get_recommendations_callback_engine_only item i :
  engine_only (Callback.get_recommendations item i).
Proof. unfold Callback.get_recommendations. pure_steps. Qed.

Lemma details_engine_only product : engine_only (Callback.details product).
Proof. unfold Callback.details. pure_steps. Qed.

(** ** Running a handler *)

Lemma bind_lift {A B : Type} (c : completion A) (k : A -> handler B) rt :
  bind (lift c) k rt =
  match c with
  | Normal a => k a rt
  | Throw t => ([], Throw t)
  end.
Proof.
  unfold bind, lift. destruct c as [ a | t ]; auto.
  destruct (k a rt); reflexivity.
Qed.

Lemma bind_ret {A B : Type} (a : A) (k : A -> handler B) rt :
  bind (ret a) k rt = k a rt.
Proof. unfold bind, ret. destruct (k a rt); reflexivity. Qed.

(** The [catch] clause sends nothing, and answers with one text block
    whenever the message of what it caught can be read and rendered. *)
Lemma report_run prefix error rt :
  report prefix error rt =
  match error with
  | EngineError k =>
      ([], Normal (text_response (prefix ++ type_error_message rt k)))
  | Rejection reason =>
      ([], match get reason "message" with
           | Normal m =>
               match to_string m with
               | Normal s => Normal (text_response (prefix ++ s))
               | Throw t => Throw t
               end
           | Throw t => Throw t
           end)
  end.
Proof.
  unfold report, bind, error_message, lift, ret.
  destruct error as [ k | reason ]; simpl; auto.
  destruct (get reason "message") as [ m | t ]; simpl; auto.
  destruct (to_string m); reflexivity.
Qed.

(** A handler is one awaited call followed by pure steps: this is how
    every [try] block of the file runs. *)
Lemma try_await_run {A : Type} request (rest : value -> completion A)
  (k : value -> handler A) (clause : thrown -> handler A) rt :
  (forall v, k v rt = ([], rest v)) ->
  try_catch (bind (await_autorag request) k) clause rt =
  match autorag rt request with
  | Resolved v =>
      match rest v with
      | Normal a => ([request], Normal a)
      | Throw t => let (sent, r) := clause t rt in (request :: sent, r)
      end
  | Rejected reason =>
      let (sent, r) := clause (Rejection reason) rt in (request :: sent, r)
  end.
Proof.
  intros Hk. unfold try_catch, bind, await_autorag.
  destruct (autorag rt request) as [ v | reason ]; simpl.
  - rewrite Hk. destruct (rest v); reflexivity.
  - reflexivity.
Qed.

Lemma engine_only_rejection {A : Type} (c : completion A) r :
  engine_only c -> c = Throw (Rejection r) -> False.
Proof. intros H E; rewrite E in H; exact H. Qed.

#[local] Hint Resolve search_products_callback_engine_only
  find_dietary_options_callback_engine_only
  get_recommendations_callback_engine_only details_engine_only
  call_map_engine_only : js_pure.

Ltac settle :=
  repeat (rewrite ?bind_lift, ?bind_ret;
          match goal with
          | |- settles (match ?c with Normal _ => _ | Throw _ => _ end) =>
              let E := fresh "E" in
              destruct c as [ ? | [ ? | ? ] ] eqn:E;
              [ | split; [ reflexivity | exact I ]
                | exfalso; eapply engine_only_rejection; [ | exact E ];
                  auto with js_pure ]
          | |- settles ((if ?b then _ else _) _) => destruct b
          | |- settles ((let _ := _ in _) _) => cbv zeta
          | |- settles (ret _ _) =>
              unfold settles, ret; simpl; split; eauto
          end).

(** The request goes out once, whatever comes back. *)
Lemma body_sends request (k : value -> handler tool_response) prefix rt :
  (forall v, settles (k v rt)) ->
  fst (try_catch (bind (await_autorag request) k) (report prefix) rt)
  = [request].
Proof.
  intros Hk. unfold try_catch, bind, await_autorag.
  destruct (autorag rt request) as [ v | reason ].
  - destruct (Hk v) as [ Hsent _ ].
    destruct (k v rt) as [ sent [ resp | t ] ]; cbn [fst] in *; subst sent.
    + reflexivity.
    + rewrite report_run. destruct t; reflexivity.
  - rewrite report_run. reflexivity.
Qed.

(** Every path through [try]/[catch] ends in one text block, provided
    a rejection carries an error. *)
Lemma body_then_report request (k : value -> handler tool_response)
  prefix rt :
  rejects_with_errors rt ->
  (forall v, settles (k v rt)) ->
  exists t,
    snd (try_catch (bind (await_autorag request) k) (report prefix) rt)
    = Normal (text_response t).
Proof.
  intros Hrt Hk. unfold try_catch, bind, await_autorag.
  destruct (autorag rt request) as [ v | reason ] eqn:E.
  - destruct (Hk v) as [ _ Hv ].
    destruct (k v rt) as [ sent [ resp | [ e | r ] ] ]; cbn [snd] in *.
    + destruct Hv as [ t -> ]. eauto.
    + rewrite report_run. cbn [snd]. eauto.
    + contradiction.
  - rewrite report_run. cbn [snd]. apply Hrt in E.
    unfold carries_message in E.
    destruct (get reason "message") as [ m | ]; try discriminate.
    destruct (to_string m); try discriminate. eauto.
Qed.

Lemma await_resolved {A : Type} request (k : value -> handler A) clause
  rt v a :
  autorag rt request = Resolved v ->
  k v rt = ([], Normal a) ->
  try_catch (bind (await_autorag request) k) clause rt
  = ([request], Normal a).
Proof.
  intros Hv Hk. unfold try_catch, bind, await_autorag.
  rewrite Hv, Hk. reflexivity.
Qed.

Lemma await_rejected request (k : value -> handler tool_response) prefix
  rt reason :
  autorag rt request = Rejected reason ->
  try_catch (bind (await_autorag request) k) (report prefix) rt
  = (request :: fst (report prefix (Rejection reason) rt),
     snd (report prefix (Rejection reason) rt)).
Proof.
  intros Hv. unfold try_catch, bind, await_autorag. rewrite Hv.
  destruct (report prefix (Rejection reason) rt); reflexivity.
Qed.

(** All four handlers settle after the awaited call. *)
Lemma invoke_shape call rt :
  exists request k prefix,
    invoke call = try_catch (bind (await_autorag request) k) (report prefix)
    /\ (forall v, settles (k v rt))
    /\ maxResults request
       = match call with
         | SearchProducts _ max_results => optional_default 10 max_results
         | GetProductDetails _ => 3
         | FindDietaryOptions _ _ => 10
         | GetRecommendations _ _ => 5
         end%Z.
Proof.
  destruct call as [ query max_results | product_name
                   | dietary_restriction meal_type | occasion preferences ];
    simpl;
    [ unfold search_products | unfold get_product_details
    | unfold find_dietary_options | unfold get_recommendations ];
    cbv zeta; do 3 eexists; (split; [ reflexivity | ]);
    (split; [ intros v; settle | reflexivity ]).
Qed.

(** ** The envelope *)

(** C2. Whichever of the four tools is invoked, with whatever valid
    arguments, and however the search capability behaves - resolving
    with any value at all, or rejecting with an error - the handler
    completes normally with a response whose content is exactly one
    block, of type "text".  Nothing escapes the handler. *)
Theorem one_text_block_always call rt :
  rejects_with_errors rt ->
  exists t,
    snd (invoke call rt)
    = Normal {| content := [ {| type := "text"; text := t |} ] |}.
Proof.
  intros Hrt.
  destruct (invoke_shape call rt) as (request & k & prefix & -> & Hk & _).
  apply body_then_report; assumption.
Qed.

Lemma one_text_block_always_witness :
  exists t,
    snd (invoke (GetRecommendations "birthday" None)
           (always (Rejected (JObj [("message", JStr "index offline")]))
              plain_messages))
    = Normal {| content := [ {| type := "text"; text := t |} ] |}.
Proof.
  apply one_text_block_always.
  intros request reason H. simpl in H. inversion H. reflexivity.
Defined.

(** A rejection reason that is no error at all falls outside the above:
    reading [message] off [undefined] throws inside the [catch]
    clause. *)
Lemma rejection_with_undefined_escapes query messages :
  snd (invoke (SearchProducts query None)
         (always (Rejected JUndefined) messages))
  = Throw (EngineError (ReadOfNullish JUndefined "message")).
Proof. reflexivity. Qed.

(** ** Result limits *)

(** C7. Every invocation sends the capability exactly one request, and
    its result limit is the tool's own: the supplied [max_results] for
    [search_products], 10 when it is omitted; 3 for
    [get_product_details]; 10 for [find_dietary_options]; 5 for
    [get_recommendations], whatever the arguments of these three. *)
Theorem result_limit_per_tool call rt :
  map maxResults (fst (invoke call rt))
  = [ match call with
      | SearchProducts _ (Some n) => n
      | SearchProducts _ None => 10
      | GetProductDetails _ => 3
      | FindDietaryOptions _ _ => 10
      | GetRecommendations _ _ => 5
      end%Z ].
Proof.
  destruct (invoke_shape call rt) as (request & k & prefix & -> & Hk & Hmax).
  rewrite body_sends by assumption. simpl. rewrite Hmax.
  destruct call as [ ? [ n | ] | | | ]; reflexivity.
Qed.

(** ** Failure of the capability *)

(** C3. When the capability rejects a [search_products] request with an
    error whose message is [M], the single text block is
    "Error searching products: " followed by [M]. *)
Theorem search_products_error_text query max_results rt reason M :
  autorag rt {| index := "cool-bush-e0f4"; query := query;
                maxResults := optional_default 10 max_results |}
  = Rejected reason ->
  get reason "message" = Normal (JStr M) ->
  snd (invoke (SearchProducts query max_results) rt)
  = Normal {| content :=
                [ {| type := "text";
                     text := "Error searching products: " ++ M |} ] |}.
Proof.
  intros Hrej Hmsg. simpl. unfold search_products.
  rewrite (await_rejected _ _ _ _ _ Hrej), report_run. cbn [snd].
  rewrite Hmsg. reflexivity.
Qed.

Lemma search_products_error_text_witness :
  snd (invoke (SearchProducts "lasagna" (Some 4%Z))
         (always (Rejected (JObj [("message", JStr "index offline")]))
            plain_messages))
  = Normal {| content :=
                [ {| type := "text";
                     text := "Error searching products: index offline" |} ] |}.
Proof.
  apply (search_products_error_text "lasagna" (Some 4%Z)
           (always (Rejected (JObj [("message", JStr "index offline")]))
              plain_messages)
           (JObj [("message", JStr "index offline")]) "index offline");
    reflexivity.
Defined.

(** ** Nothing found *)

Lemma without_results_no_results v :
  without_results v = true -> no_results v = Normal true.
Proof.
  destruct v as [ | | b | n | s | elems | props ]; simpl;
    try discriminate; try reflexivity.
  unfold no_results. simpl.
  destruct (own props "results") as [ [ | | b | n | s | [ | x l ] | q ] | ];
    simpl; try discriminate; reflexivity.
Qed.

(** C6. When the capability resolves a [get_product_details] request
    with a missing response, a missing [results] field or an empty
    [results] sequence, the single text block is "Product not found: "
    followed by the product name in double quotes. *)
Theorem product_not_found_text product_name rt v :
  autorag rt {| index := "cool-bush-e0f4"; query := product_name;
                maxResults := 3 |}
  = Resolved v ->
  without_results v = true ->
  snd (invoke (GetProductDetails product_name) rt)
  = Normal {| content :=
                [ {| type := "text";
                     text := "Product not found: " ++ dquote ++ product_name
                               ++ dquote |} ] |}.
Proof.
  intros Hres Hnone. simpl. unfold get_product_details.
  erewrite await_resolved; [ reflexivity | exact Hres | ].
  rewrite bind_lift, (without_results_no_results _ Hnone). reflexivity.
Qed.

Lemma product_not_found_text_witness :
  snd (invoke (GetProductDetails "Unicorn Cake")
         (always (Resolved (search_response [])) plain_messages))
  = Normal {| content :=
                [ {| type := "text";
                     text := "Product not found: " ++ dquote ++ "Unicorn Cake"
                               ++ dquote |} ] |}.
Proof.
  apply (product_not_found_text "Unicorn Cake"
           (always (Resolved (search_response [])) plain_messages)
           (search_response []));
    reflexivity.
Defined.

(** ** Optional parameters *)

(** C10. An empty [meal_type] makes [find_dietary_options] send the
    same request and give the same outcome as an omitted one, on every
    runtime; likewise an empty [preferences] for
    [get_recommendations]. *)
Theorem empty_string_as_omitted rt :
  (forall dietary_restriction,
      invoke (FindDietaryOptions dietary_restriction (Some EmptyString)) rt
      = invoke (FindDietaryOptions dietary_restriction None) rt)
  /\ (forall occasion,
         invoke (GetRecommendations occasion (Some EmptyString)) rt
         = invoke (GetRecommendations occasion None) rt).
Proof. split; intros; reflexivity. Qed.

(** ** Query construction *)

(** C4, as the code has it. [get_recommendations] sends the occasion
    followed by " gift meal", and appends a space and the preferences
    when they are supplied and not the empty string; an omitted or
    empty [preferences] adds nothing.  So "birthday" with "chocolate"
    sends "birthday gift meal chocolate". *)
Theorem recommendation_query occasion preferences rt :
  fst (invoke (GetRecommendations occasion preferences) rt)
  = [ {| index := "cool-bush-e0f4";
         query := match preferences with
                  | Some p =>
                      if p =? EmptyString then occasion ++ " gift meal"
                      else (occasion ++ " gift meal") ++ " " ++ p
                  | None => occasion ++ " gift meal"
                  end;
         maxResults := 5 |} ]
  /\ map query (fst (invoke (GetRecommendations "birthday" (Some "chocolate"))
                       rt))
     = [ "birthday gift meal chocolate" ].
Proof.
  split.
  - simpl. unfold get_recommendations. cbv zeta.
    rewrite body_sends by (intros v; settle).
    destruct preferences as [ p | ]; simpl; [ | reflexivity ].
    destruct (p =? EmptyString); reflexivity.
  - simpl. unfold get_recommendations. cbv zeta.
    rewrite body_sends by (intros v; settle). reflexivity.
Qed.

(** C4 as stated fails when [preferences] is supplied as the empty
    string: no space is appended. *)
Lemma empty_preferences_not_appended :
  map query
    (fst (invoke (GetRecommendations "birthday" (Some EmptyString))
            (always (Resolved JNull) plain_messages)))
  = [ "birthday gift meal" ]
  /\ map query
       (fst (invoke (GetRecommendations "birthday" (Some EmptyString))
               (always (Resolved JNull) plain_messages)))
     <> [ "birthday" ++ " gift meal" ++ " " ++ EmptyString ].
Proof. split; [ reflexivity | discriminate ]. Qed.

(** ** Rendering of hits *)

Lemma get_title i : get (Item.to_value i) "title" = Normal (optional (Item.title i)).
Proof. destruct i as [ [ t | ] [ u | ] [ s | ] [ c | ] ]; reflexivity. Qed.

Lemma get_url i : get (Item.to_value i) "url" = Normal (optional (Item.url i)).
Proof. destruct i as [ [ t | ] [ u | ] [ s | ] [ c | ] ]; reflexivity. Qed.

Lemma get_snippet i :
  get (Item.to_value i) "snippet" = Normal (optional (Item.snippet i)).
Proof. destruct i as [ [ t | ] [ u | ] [ s | ] [ c | ] ]; reflexivity. Qed.

Lemma get_content i :
  get (Item.to_value i) "content" = Normal (optional (Item.content i)).
Proof. destruct i as [ [ t | ] [ u | ] [ s | ] [ c | ] ]; reflexivity. Qed.

(** [${field || 'placeholder'}] shows the field, or the placeholder
    when the field is absent or empty. *)
Lemma to_string_or_else field placeholder :
  to_string (or_else (optional field) (JStr placeholder))
  = Normal (Item.shown field placeholder).
Proof.
  destruct field as [ s | ]; [ | reflexivity ].
  unfold or_else, Item.shown. simpl.
  destruct (s =? EmptyString); reflexivity.
Qed.

Lemma search_products_callback_line i index :
  Callback.search_products (Item.to_value i) index
  = Normal (Template.product_line (index + 1) i).
Proof.
  unfold Callback.search_products.
  rewrite get_title, get_url, get_snippet. cbn [cbind].
  rewrite !to_string_or_else. reflexivity.
Qed.

Lemma find_dietary_options_callback_line i index :
  Callback.find_dietary_options (Item.to_value i) index
  = Normal (Template.dietary_line (index + 1) i).
Proof.
  unfold Callback.find_dietary_options.
  rewrite get_title, get_url. cbn [cbind].
  rewrite !to_string_or_else. reflexivity.
Qed.

Lemma get_recommendations_callback_line i index :
  Callback.get_recommendations (Item.to_value i) index
  = Normal (Template.recommendation_line EmptyString (index + 1) i).
Proof.
  unfold Callback.get_recommendations.
  rewrite get_title, get_url, get_snippet. cbn [cbind].
  rewrite !to_string_or_else. reflexivity.
Qed.

Lemma details_text i :
  Callback.details (Item.to_value i) = Normal (Template.detail i).
Proof.
  unfold Callback.details.
  rewrite get_title, get_url, get_content, get_snippet. cbn [cbind].
  rewrite !to_string_or_else. unfold Template.detail.
  destruct (Item.content i) as [ c | ]; simpl.
  - destruct (c =? EmptyString) eqn:Hc; simpl.
    + rewrite to_string_or_else. reflexivity.
    + reflexivity.
  - rewrite to_string_or_else. reflexivity.
Qed.

Lemma map_from_items (callback : value -> nat -> completion string)
  (line : nat -> Item.t -> string) :
  (forall i index, callback (Item.to_value i) index
                   = Normal (line (index + 1) i)) ->
  forall items start,
    map_from start callback (map Item.to_value items)
    = Normal (numbered start line items).
Proof.
  intros Hline. induction items as [ | i rest IH ]; intros start; simpl.
  - reflexivity.
  - rewrite Hline, IH. reflexivity.
Qed.

Lemma no_results_of_hits i rest :
  no_results (search_response (i :: rest)) = Normal false.
Proof. reflexivity. Qed.

Lemma to_string_length n :
  to_string (JNum (Z.of_nat n)) = Normal (nat_to_string n).
Proof.
  simpl. unfold num_to_string.
  destruct (Z.ltb_spec (Z.of_nat n) 0) as [ H | H ]; [ lia | ].
  rewrite Nat2Z.id. reflexivity.
Qed.

Lemma get_results items :
  get (search_response items) "results"
  = Normal (JArr (map Item.to_value items)).
Proof. reflexivity. Qed.

Lemma get_length items :
  get (JArr (map Item.to_value items)) "length"
  = Normal (JNum (Z.of_nat (List.length items))).
Proof. simpl. rewrite length_map. reflexivity. Qed.

Lemma call_map_items callee (callback : value -> nat -> completion string)
  (line : nat -> Item.t -> string) items :
  (forall i index, callback (Item.to_value i) index
                   = Normal (line (index + 1) i)) ->
  call_map callee (JArr (map Item.to_value items)) callback
  = Normal (numbered 0 line items).
Proof. intros Hline. apply map_from_items, Hline. Qed.

Ltac found_steps :=
  rewrite ?bind_lift, ?no_results_of_hits, ?get_results; cbv iota;
  rewrite ?bind_lift;
  try erewrite call_map_items
    by first [ apply search_products_callback_line
             | apply find_dietary_options_callback_line
             | apply get_recommendations_callback_line ];
  cbv iota zeta;
  rewrite ?bind_lift, ?get_length; cbv iota;
  rewrite ?bind_lift, ?to_string_length; cbv iota.

Lemma search_products_found query max_results rt i rest :
  autorag rt {| index := "cool-bush-e0f4"; query := query;
                maxResults := max_results |}
  = Resolved (search_response (i :: rest)) ->
  snd (search_products query max_results rt)
  = Normal (text_response
              ("Found " ++ nat_to_string (List.length (i :: rest))
                 ++ " products:" ++ nl ++ nl
                 ++ Template.listing Template.product_line (i :: rest))).
Proof.
  intros Hres. unfold search_products.
  erewrite await_resolved; [ reflexivity | exact Hres | ].
  found_steps. reflexivity.
Qed.

Lemma get_product_details_found product_name rt i rest :
  autorag rt {| index := "cool-bush-e0f4"; query := product_name;
                maxResults := 3 |}
  = Resolved (search_response (i :: rest)) ->
  snd (get_product_details product_name rt)
  = Normal (text_response (Template.detail i)).
Proof.
  intros Hres. unfold get_product_details.
  erewrite await_resolved; [ reflexivity | exact Hres | ].
  found_steps.
  change (get_index (JArr (map Item.to_value (i :: rest))) 0)
    with (Normal (Item.to_value i)).
  cbv iota. rewrite bind_lift, details_text. reflexivity.
Qed.

Lemma find_dietary_options_found dietary_restriction meal_type rt i rest :
  autorag rt {| index := "cool-bush-e0f4";
                query := if truthy (optional meal_type)
                         then dietary_restriction ++ " " ++ show meal_type
                         else dietary_restriction;
                maxResults := 10 |}
  = Resolved (search_response (i :: rest)) ->
  snd (find_dietary_options dietary_restriction meal_type rt)
  = Normal (text_response
              ("Found " ++ nat_to_string (List.length (i :: rest)) ++ " "
                 ++ dietary_restriction ++ " products"
                 ++ (if truthy (optional meal_type)
                     then " for " ++ show meal_type else EmptyString)
                 ++ ":" ++ nl ++ nl
                 ++ Template.listing Template.dietary_line (i :: rest))).
Proof.
  intros Hres. unfold find_dietary_options. cbv zeta.
  erewrite await_resolved; [ reflexivity | exact Hres | ].
  found_steps. reflexivity.
Qed.

Lemma get_recommendations_found occasion preferences rt i rest :
  autorag rt {| index := "cool-bush-e0f4";
                query := if truthy (optional preferences)
                         then (occasion ++ " gift meal") ++ " "
                                ++ show preferences
                         else occasion ++ " gift meal";
                maxResults := 5 |}
  = Resolved (search_response (i :: rest)) ->
  snd (get_recommendations occasion preferences rt)
  = Normal (text_response
              ("Top recommendations for " ++ occasion
                 ++ (if truthy (optional preferences)
                     then " (" ++ show preferences ++ ")" else EmptyString)
                 ++ ":" ++ nl ++ nl
                 ++ Template.listing
                      (Template.recommendation_line EmptyString) (i :: rest))).
Proof.
  intros Hres. unfold get_recommendations. cbv zeta.
  erewrite await_resolved; [ reflexivity | exact Hres | ].
  found_steps. reflexivity.
Qed.

Lemma append_assoc (a b c : string) : (a ++ b) ++ c = a ++ b ++ c.
Proof. induction a as [ | x a IH ]; simpl; [ | rewrite IH ]; reflexivity. Qed.

(** C1, as the code has it. Whatever hits the capability returns, the
    items shown by the four handlers follow the templates, in which an
    absent (or empty) title reads "Untitled" and an absent url "N/A";
    an absent snippet reads "No description available" in
    [search_products], and so does the description of
    [get_product_details] when content and snippet are both absent.
    [find_dietary_options] shows no snippet.  In [get_recommendations]
    an absent snippet leaves the third line with its indentation only.
    No absent field is shown as "undefined". *)
Theorem hits_render_with_placeholders rt i rest :
  (forall request, autorag rt request = Resolved (search_response (i :: rest))) ->
  (forall query max_results, exists header,
      snd (invoke (SearchProducts query max_results) rt)
      = Normal {| content :=
                    [ {| type := "text";
                         text := header ++ nl ++ nl
                                   ++ Template.listing Template.product_line
                                        (i :: rest) |} ] |})
  /\ (forall product_name,
         snd (invoke (GetProductDetails product_name) rt)
         = Normal {| content :=
                       [ {| type := "text"; text := Template.detail i |} ] |})
  /\ (forall dietary_restriction meal_type, exists header,
         snd (invoke (FindDietaryOptions dietary_restriction meal_type) rt)
         = Normal {| content :=
                       [ {| type := "text";
                            text := header ++ nl ++ nl
                                      ++ Template.listing Template.dietary_line
                                           (i :: rest) |} ] |})
  /\ (forall occasion preferences, exists header,
         snd (invoke (GetRecommendations occasion preferences) rt)
         = Normal {| content :=
                       [ {| type := "text";
                            text := header ++ nl ++ nl
                                      ++ Template.listing
                                           (Template.recommendation_line
                                              EmptyString)
                                           (i :: rest) |} ] |})
  /\ (forall placeholder, Item.shown None placeholder = placeholder)
  /\ Template.product_line 1 bare_item
     = "1. Untitled" ++ nl ++ "   URL: N/A" ++ nl
         ++ "   No description available"
  /\ Template.detail bare_item
     = "Product: Untitled" ++ nl ++ "URL: N/A" ++ nl ++ nl
         ++ "Description:" ++ nl ++ "No description available"
  /\ Template.dietary_line 1 bare_item = "1. Untitled" ++ nl ++ "   N/A"
  /\ Template.recommendation_line EmptyString 1 bare_item
     = "1. Untitled" ++ nl ++ "   N/A" ++ nl ++ "   ".
Proof.
  intros Hres. repeat split.
  - intros query max_results. simpl.
    rewrite (search_products_found _ _ _ _ _ (Hres _)).
    exists ("Found " ++ nat_to_string (List.length (i :: rest)) ++ " products:").
    unfold text_response. rewrite !append_assoc. reflexivity.
  - intros product_name. simpl.
    rewrite (get_product_details_found _ _ _ _ (Hres _)). reflexivity.
  - intros dietary_restriction meal_type. simpl.
    rewrite (find_dietary_options_found _ _ _ _ _ (Hres _)).
    exists ("Found " ++ nat_to_string (List.length (i :: rest)) ++ " "
              ++ dietary_restriction ++ " products"
              ++ (if truthy (optional meal_type)
                  then " for " ++ show meal_type else EmptyString)
              ++ ":").
    unfold text_response. rewrite !append_assoc. reflexivity.
  - intros occasion preferences. simpl.
    rewrite (get_recommendations_found _ _ _ _ _ (Hres _)).
    exists ("Top recommendations for " ++ occasion
              ++ (if truthy (optional preferences)
                  then " (" ++ show preferences ++ ")" else EmptyString)
              ++ ":").
    unfold text_response. rewrite !append_assoc. reflexivity.
Qed.

Lemma hits_render_with_placeholders_witness :
  exists header,
    snd (invoke (GetRecommendations "birthday" None)
           (always (Resolved (search_response [bare_item])) plain_messages))
    = Normal {| content :=
                  [ {| type := "text";
                       text := header ++ nl ++ nl
                                 ++ Template.listing
                                      (Template.recommendation_line EmptyString)
                                      [bare_item] |} ] |}.
Proof.
  apply (hits_render_with_placeholders
           (always (Resolved (search_response [bare_item])) plain_messages)
           bare_item []).
  intros request. reflexivity.
Defined.

(** C1 as stated fails in [get_recommendations]: a hit without a
    snippet is not shown with "No description available"; its third
    line is left empty after the indentation. *)
Lemma recommendation_snippet_left_empty :
  snd (invoke (GetRecommendations "birthday" None)
         (always (Resolved (search_response [bare_item])) plain_messages))
  = Normal (text_response
              ("Top recommendations for birthday:" ++ nl ++ nl
                 ++ "1. Untitled" ++ nl ++ "   N/A" ++ nl ++ "   "))
  /\ snd (invoke (GetRecommendations "birthday" None)
            (always (Resolved (search_response [bare_item])) plain_messages))
     <> Normal (text_response
                  ("Top recommendations for birthday:" ++ nl ++ nl
                     ++ Template.listing
                          (Template.recommendation_line
                             "No description available") [bare_item])).
Proof. split; [ reflexivity | discriminate ]. Qed.

(** C5. [find_dietary_options] called with "vegan" and no meal type,
    the capability resolving with two hits: the text block begins with
    "Found 2 vegan products:" and lists the two hits in the order
    received, the first numbered "1. " and the second "2. ". *)
Theorem two_vegan_products rt a b :
  autorag rt {| index := "cool-bush-e0f4"; query := "vegan";
                maxResults := 10 |}
  = Resolved (search_response [a; b]) ->
  exists t,
    snd (invoke (FindDietaryOptions "vegan" None) rt)
    = Normal {| content := [ {| type := "text"; text := t |} ] |}
    /\ String.prefix "Found 2 vegan products:" t = true
    /\ t = "Found 2 vegan products:" ++ nl ++ nl
             ++ "1. " ++ Item.shown (Item.title a) "Untitled" ++ nl
             ++ "   " ++ Item.shown (Item.url a) "N/A" ++ nl ++ nl
             ++ "2. " ++ Item.shown (Item.title b) "Untitled" ++ nl
             ++ "   " ++ Item.shown (Item.url b) "N/A".
Proof.
  intros Hres. simpl invoke.
  rewrite (find_dietary_options_found "vegan" None rt a [b] Hres).
  eexists. split; [ reflexivity | ].
  split.
  - reflexivity.
  - unfold Template.listing, Template.dietary_line, join. simpl.
    rewrite ?append_assoc. simpl. rewrite ?append_assoc. reflexivity.
Qed.

Lemma two_vegan_products_witness :
  exists t,
    snd (invoke (FindDietaryOptions "vegan" None)
           (always (Resolved
                      (search_response
                         [ {| Item.title := Some "Lentil Stew";
                              Item.url := Some "https://example.test/stew";
                              Item.snippet := None; Item.content := None |};
                           bare_item ]))
              plain_messages))
    = Normal {| content := [ {| type := "text"; text := t |} ] |}
    /\ String.prefix "Found 2 vegan products:" t = true
    /\ t = "Found 2 vegan products:" ++ nl ++ nl
             ++ "1. " ++ "Lentil Stew" ++ nl
             ++ "   " ++ "https://example.test/stew" ++ nl ++ nl
             ++ "2. " ++ "Untitled" ++ nl
             ++ "   " ++ "N/A".
Proof.
  apply (two_vegan_products
           (always (Resolved
                      (search_response
                         [ {| Item.title := Some "Lentil Stew";
                              Item.url := Some "https://example.test/stew";
                              Item.snippet := None; Item.content := None |};
                           bare_item ]))
              plain_messages)
           {| Item.title := Some "Lentil Stew";
              Item.url := Some "https://example.test/stew";
              Item.snippet := None; Item.content := None |}
           bare_item).
  reflexivity.
Defined.

(** ** The router *)

(** C8. Requests to "/" and to "/health" get the same response: status
    200, content type application/json, and as body the serialised
    status document, an object with exactly the keys name, version,
    status ("healthy") and endpoints, the latter holding sse = "/sse"
    and mcp = "/mcp".  Nothing in it depends on the path. *)
Theorem health_check_document :
  fetch "/" = fetch "/health"
  /\ (exists r,
         fetch "/" = Reply r
         /\ status r = 200%Z
         /\ header r "Content-Type" = Some "application/json"
         /\ headers r = [("content-type", "application/json")]
         /\ body r = JSON_stringify status_document
         /\ body r
            = Some (String.concat dquote
                      [ "{"; "name"; ":"; "SendaMeal MCP Server"; ",";
                        "version"; ":"; "1.0.0"; ",";
                        "status"; ":"; "healthy"; ",";
                        "endpoints"; ":{"; "sse"; ":"; "/sse"; ",";
                        "mcp"; ":"; "/mcp"; "}}" ]))
  /\ (exists name version,
         status_document
         = JObj [ ("name", JStr name); ("version", JStr version);
                  ("status", JStr "healthy");
                  ("endpoints",
                   JObj [("sse", JStr "/sse"); ("mcp", JStr "/mcp")]) ]).
Proof.
  split; [ reflexivity | split ].
  - eexists. split; [ reflexivity | ]. repeat split; reflexivity.
  - do 2 eexists. reflexivity.
Qed.

Lemma fetch_not_found pathname :
  pathname <> "/sse" -> pathname <> "/sse/message" -> pathname <> "/mcp" ->
  pathname <> "/" -> pathname <> "/health" ->
  fetch pathname = Reply (new_Response (Some "Not found") (Some 404%Z) []).
Proof.
  intros H1 H2 H3 H4 H5. unfold fetch.
  apply String.eqb_neq in H1, H2, H3, H4, H5.
  rewrite H1, H2, H3, H4, H5. reflexivity.
Qed.

(** C9. A request whose path is none of "/sse", "/sse/message", "/mcp",
    "/" and "/health" gets status 404 with the plain-text body
    "Not found"; and every path takes exactly one of the four branches
    of the router, the one its path selects. *)
Theorem unknown_path_not_found pathname :
  (pathname <> "/sse" -> pathname <> "/sse/message" -> pathname <> "/mcp" ->
   pathname <> "/" -> pathname <> "/health" ->
   exists r,
     fetch pathname = Reply r
     /\ status r = 404%Z
     /\ body r = Some "Not found"
     /\ header r "Content-Type" = Some "text/plain;charset=UTF-8")
  /\ (((pathname = "/sse" \/ pathname = "/sse/message")
       /\ fetch pathname = ServeSSE "/sse")
      \/ (pathname = "/mcp" /\ fetch pathname = Serve "/mcp")
      \/ ((pathname = "/" \/ pathname = "/health")
          /\ fetch pathname
             = Reply (new_Response (JSON_stringify status_document) None
                        [("Content-Type", "application/json")]))
      \/ ((pathname <> "/sse" /\ pathname <> "/sse/message"
           /\ pathname <> "/mcp" /\ pathname <> "/" /\ pathname <> "/health")
          /\ fetch pathname
             = Reply (new_Response (Some "Not found") (Some 404%Z) []))).
Proof.
  split.
  - intros H1 H2 H3 H4 H5.
    rewrite (fetch_not_found pathname H1 H2 H3 H4 H5).
    eexists. split; [ reflexivity | ]. repeat split; reflexivity.
  - destruct (String.eqb_spec pathname "/sse") as [ -> | H1 ];
      [ left; split; [ left | ]; reflexivity | ].
    destruct (String.eqb_spec pathname "/sse/message") as [ -> | H2 ];
      [ left; split; [ right | ]; reflexivity | ].
    destruct (String.eqb_spec pathname "/mcp") as [ -> | H3 ];
      [ right; left; split; reflexivity | ].
    destruct (String.eqb_spec pathname "/") as [ -> | H4 ];
      [ right; right; left; split; [ left | ]; reflexivity | ].
    destruct (String.eqb_spec pathname "/health") as [ -> | H5 ];
      [ right; right; left; split; [ right | ]; reflexivity | ].
    right; right; right. split; [ repeat split; assumption | ].
    apply fetch_not_found; assumption.
Qed.

Lemma unknown_path_not_found_witness :
  exists r,
    fetch "/orders" = Reply r
    /\ status r = 404%Z
    /\ body r = Some "Not found"
    /\ header r "Content-Type" = Some "text/plain;charset=UTF-8".
Proof.
  apply (proj1 (unknown_path_not_found "/orders")); discriminate.
Defined.

(** ** Sample runs *)

(** A response whose [results] is not an array ends in the [catch]
    clause, with the engine's message for the failed call of [map]. *)
Example results_not_an_array :
  snd (invoke (SearchProducts "soup" None)
         (always (Resolved (JObj [("results", JStr "none")])) plain_messages))
  = Normal (text_response
              "Error searching products: results.results.map is not a function").
Proof. reflexivity. Qed.

(** A [null] among the hits does too. *)
Example null_hit :
  snd (invoke (FindDietaryOptions "kosher" (Some "dinner"))
         (always (Resolved (JObj [("results", JArr [JNull])])) plain_messages))
  = Normal (text_response
              "Error finding dietary options: Cannot read property title").
Proof. reflexivity. Qed.

(** An error without a message is reported with the word the template
    literal gives [undefined]. *)
Example error_without_message :
  snd (invoke (GetProductDetails "Unicorn Cake")
         (always (Rejected (JObj [])) plain_messages))
  = Normal (text_response "Error fetching product details: undefined").
Proof. reflexivity. Qed.

(** An object that only looks empty: [length] is 0. *)
Example length_zero_object :
  snd (invoke (GetRecommendations "thank you" (Some "nut-free"))
         (always (Resolved (JObj [("results", JObj [("length", JNum 0)])]))
            plain_messages))
  = Normal (text_response "No recommendations found for thank you").
Proof. reflexivity. Qed.

(** ** Every handler is one call and pure steps *)

Lemma pure_ret t : pure_step (ret (text_response t)).
Proof. exists (Normal (text_response t)). split; [ reflexivity | eauto ]. Qed.

Lemma pure_bind_lift {A : Type} (c : completion A)
  (k : A -> handler tool_response) :
  engine_only c -> (forall a, pure_step (k a)) ->
  pure_step (bind (lift c) k).
Proof.
  intros Hc Hk. destruct c as [ a | [ e | r ] ]; simpl in Hc.
  - destruct (Hk a) as (c' & Hrun & Hc'). exists c'. split; [ | exact Hc' ].
    intros rt. rewrite bind_lift. apply Hrun.
  - exists (Throw (EngineError e)). split; [ | exact I ].
    intros rt. rewrite bind_lift. reflexivity.
  - contradiction.
Qed.

Ltac pure_steps_of_handler :=
  repeat match goal with
    | |- pure_step (bind (lift _) _) =>
        apply pure_bind_lift; [ solve [ auto with js_pure ] | intro ]
    | |- pure_step (if ?b then _ else _) => destruct b
    | |- pure_step (let _ := _ in _) => cbv zeta
    | |- pure_step (ret (text_response _)) => apply pure_ret
    end.

(** The shape shared by the four handlers, with the request and the
    prefix of each. *)
Lemma invoke_run call :
  exists k,
    invoke call
    = try_catch (bind (await_autorag (request_of call)) k)
        (report (error_prefix call))
    /\ (forall v, pure_step (k v)).
Proof.
  destruct call as [ query max_results | product_name
                   | dietary_restriction meal_type | occasion preferences ];
    simpl;
    [ unfold search_products | unfold get_product_details
    | unfold find_dietary_options | unfold get_recommendations ];
    cbv zeta; eexists; (split; [ reflexivity | ]);
    intros v; cbv beta; pure_steps_of_handler.
Qed.

Lemma pure_step_sends_nothing h rt : pure_step h -> fst (h rt) = [].
Proof. intros (c & Hrun & _). rewrite Hrun. reflexivity. Qed.

Lemma run_after_await request (k : value -> handler tool_response)
  prefix rt :
  (forall v, pure_step (k v)) ->
  try_catch (bind (await_autorag request) k) (report prefix) rt
  = ([request],
     match autorag rt request with
     | Resolved v =>
         match snd (k v rt) with
         | Normal resp => Normal resp
         | Throw t => snd (report prefix t rt)
         end
     | Rejected reason => snd (report prefix (Rejection reason) rt)
     end).
Proof.
  intros Hk. unfold try_catch, bind, await_autorag.
  destruct (autorag rt request) as [ v | reason ].
  - destruct (Hk v) as (c & Hrun & _). rewrite Hrun. cbn [snd].
    destruct c as [ resp | t ]; [ reflexivity | ].
    rewrite report_run. destruct t; reflexivity.
  - rewrite report_run. reflexivity.
Qed.

(** X6. Whatever the capability does - resolve with hits, with nothing,
    with a malformed value, or reject - a call sends it exactly one
    request: the fixed index, the tool's query and limit.  Nothing is
    sent a second time. *)
Theorem one_request_per_call call rt :
  fst (invoke call rt) = [request_of call]
  /\ index (request_of call) = "cool-bush-e0f4".
Proof.
  split; [ | destruct call; reflexivity ].
  destruct (invoke_run call) as (k & -> & Hk).
  rewrite run_after_await by assumption. reflexivity.
Qed.

(** X7. The outcome of a call depends on the runtime only through how
    the capability settles that one request and through the wording of
    engine errors. *)
Theorem outcome_depends_on_one_request call rt rt' :
  autorag rt (request_of call) = autorag rt' (request_of call) ->
  (forall k, type_error_message rt k = type_error_message rt' k) ->
  invoke call rt = invoke call rt'.
Proof.
  intros Hsame Hmsg.
  destruct (invoke_run call) as (k & -> & Hk).
  rewrite !run_after_await by assumption. rewrite <- Hsame.
  f_equal.
  destruct (autorag rt (request_of call)) as [ v | reason ].
  - destruct (Hk v) as (c & Hrun & _). rewrite !Hrun. cbn [snd].
    destruct c as [ resp | t ]; [ reflexivity | ].
    rewrite !report_run. destruct t as [ e | r ]; cbn [snd];
      [ rewrite Hmsg | ]; reflexivity.
  - rewrite !report_run. reflexivity.
Qed.

Lemma outcome_depends_on_one_request_witness :
  invoke (SearchProducts "soup" None)
    {| autorag := fun request =>
                    if query request =? "soup" then Resolved JNull
                    else Rejected JNull;
       type_error_message := plain_messages |}
  = invoke (SearchProducts "soup" None)
      (always (Resolved JNull) plain_messages).
Proof.
  apply outcome_depends_on_one_request; reflexivity.
Defined.

(** X1. When the capability rejects with a reason whose [message] can
    be read and rendered as [s], each tool answers with its own prefix
    followed by [s], as one text block. *)
Theorem error_text_per_tool call rt reason m s :
  autorag rt (request_of call) = Rejected reason ->
  get reason "message" = Normal m ->
  to_string m = Normal s ->
  snd (invoke call rt) = Normal (text_response (error_prefix call ++ s)).
Proof.
  intros Hrej Hm Hs.
  destruct (invoke_run call) as (k & -> & Hk).
  rewrite run_after_await by assumption. cbn [snd].
  rewrite Hrej, report_run. cbn [snd]. rewrite Hm, Hs. reflexivity.
Qed.

Lemma error_text_per_tool_witness :
  snd (invoke (FindDietaryOptions "vegan" (Some "dinner"))
         (always (Rejected (JObj [("message", JNum 503)])) plain_messages))
  = Normal (text_response ("Error finding dietary options: " ++ "503")).
Proof.
  apply (error_text_per_tool (FindDietaryOptions "vegan" (Some "dinner"))
           (always (Rejected (JObj [("message", JNum 503)])) plain_messages)
           (JObj [("message", JNum 503)]) (JNum 503) "503");
    reflexivity.
Defined.

(** X2. A rejection reason that is [undefined] or [null] is not
    reported: reading its [message] throws inside the [catch] clause,
    and the [TypeError] leaves the handler, for each of the four
    tools. *)
Theorem nullish_rejection_escapes call rt reason :
  autorag rt (request_of call) = Rejected reason ->
  reason = JUndefined \/ reason = JNull ->
  snd (invoke call rt) = Throw (EngineError (ReadOfNullish reason "message")).
Proof.
  intros Hrej Hnull.
  destruct (invoke_run call) as (k & -> & Hk).
  rewrite run_after_await by assumption. cbn [snd].
  rewrite Hrej, report_run. cbn [snd].
  destruct Hnull as [ -> | -> ]; reflexivity.
Qed.

Lemma nullish_rejection_escapes_witness :
  snd (invoke (GetProductDetails "Unicorn Cake")
         (always (Rejected JNull) plain_messages))
  = Throw (EngineError (ReadOfNullish JNull "message")).
Proof.
  apply (nullish_rejection_escapes (GetProductDetails "Unicorn Cake")
           (always (Rejected JNull) plain_messages) JNull);
    [ reflexivity | right; reflexivity ].
Defined.

(** X3. A rejection reason that has no [message] - a thrown string,
    number or boolean, an array, or an object without that property -
    is reported with the word "undefined" after the prefix; a thrown
    string loses its text. *)
Theorem messageless_rejection_text call rt reason :
  autorag rt (request_of call) = Rejected reason ->
  match reason with
  | JStr _ | JNum _ | JBool _ | JArr _ => True
  | JObj props => own props "message" = None
  | JUndefined | JNull => False
  end ->
  snd (invoke call rt)
  = Normal (text_response (error_prefix call ++ "undefined")).
Proof.
  intros Hrej Hreason.
  assert (Hm : get reason "message" = Normal JUndefined).
  { destruct reason as [ | | b | n | s | elems | props ]; simpl in *;
      try contradiction; try reflexivity.
    rewrite Hreason. reflexivity. }
  destruct (invoke_run call) as (k & -> & Hk).
  rewrite run_after_await by assumption. cbn [snd].
  rewrite Hrej, report_run. cbn [snd]. rewrite Hm. reflexivity.
Qed.

Lemma messageless_rejection_text_witness :
  snd (invoke (GetRecommendations "birthday" None)
         (always (Rejected (JStr "quota exceeded")) plain_messages))
  = Normal (text_response ("Error getting recommendations: " ++ "undefined")).
Proof.
  apply (messageless_rejection_text (GetRecommendations "birthday" None)
           (always (Rejected (JStr "quota exceeded")) plain_messages)
           (JStr "quota exceeded"));
    [ reflexivity | exact I ].
Defined.

(** ** Nothing to show *)

Lemma get_of_truthy v name :
  truthy v = true -> exists r, get v name = Normal r.
Proof. destruct v; simpl; intros H; try discriminate; eauto. Qed.

(** X5. The emptiness test
    [!results || !results.results || results.results.length === 0]
    never throws, whatever value the capability resolved with: each
    property is read only off a value already found truthy. *)
Theorem no_results_never_throws v : exists b, no_results v = Normal b.
Proof.
  unfold no_results. destruct (truthy v) eqn:Hv; simpl; [ | eauto ].
  destruct (get_of_truthy v "results" Hv) as [ r Hr ]. rewrite Hr. simpl.
  destruct (truthy r) eqn:Hrt; simpl; [ | eauto ].
  destruct (get_of_truthy r "length" Hrt) as [ len Hlen ]. rewrite Hlen.
  simpl. eauto.
Qed.

(** X4. When the emptiness test succeeds on the resolved value, each
    tool answers with its own not-found text: [search_products] and
    [get_product_details] quote the query, [find_dietary_options]
    names the restriction and, if one was given, the meal type;
    [get_recommendations] names the occasion and leaves the
    preferences out. *)
Theorem nothing_found_texts call rt v :
  autorag rt (request_of call) = Resolved v ->
  no_results v = Normal true ->
  snd (invoke call rt)
  = Normal
      (text_response
         match call with
         | SearchProducts query _ =>
             "No products found for query: " ++ dquote ++ query ++ dquote
         | GetProductDetails product_name =>
             "Product not found: " ++ dquote ++ product_name ++ dquote
         | FindDietaryOptions dietary_restriction meal_type =>
             "No " ++ dietary_restriction ++ " products found"
               ++ match meal_type with
                  | Some m => if m =? EmptyString then EmptyString
                              else " for " ++ m
                  | None => EmptyString
                  end
         | GetRecommendations occasion _ =>
             "No recommendations found for " ++ occasion
         end).
Proof.
  intros Hres Hnone.
  destruct call as [ query max_results | product_name
                   | dietary_restriction meal_type | occasion preferences ];
    simpl in *;
    [ unfold search_products | unfold get_product_details
    | unfold find_dietary_options | unfold get_recommendations ];
    cbv zeta;
    (erewrite await_resolved; [ reflexivity | exact Hres | ]);
    rewrite bind_lift, Hnone; try reflexivity.
  destruct meal_type as [ m | ]; simpl; [ | reflexivity ].
  destruct (m =? EmptyString); reflexivity.
Qed.

Lemma nothing_found_texts_witness :
  snd (invoke (GetRecommendations "birthday" (Some "chocolate"))
         (always (Resolved (JObj [("results", JArr [])])) plain_messages))
  = Normal (text_response ("No recommendations found for " ++ "birthday")).
Proof.
  apply (nothing_found_texts (GetRecommendations "birthday" (Some "chocolate"))
           (always (Resolved (JObj [("results", JArr [])])) plain_messages)
           (JObj [("results", JArr [])]));
    reflexivity.
Defined.

(** ** Hits that are not well formed *)

Lemma await_resolved_snd request (k : value -> handler tool_response)
  prefix rt v :
  autorag rt request = Resolved v ->
  snd (try_catch (bind (await_autorag request) k) (report prefix) rt)
  = match snd (k v rt) with
    | Normal resp => Normal resp
    | Throw t => snd (report prefix t rt)
    end.
Proof.
  intros Hv. unfold try_catch, bind, await_autorag. rewrite Hv.
  destruct (k v rt) as [ sent [ resp | t ] ]; cbn [snd]; [ reflexivity | ].
  destruct (report prefix t rt); reflexivity.
Qed.

Lemma no_results_of_array x rest :
  no_results (JObj [("results", JArr (x :: rest))]) = Normal false.
Proof. reflexivity. Qed.

Lemma no_results_of_nonempty elems :
  elems <> [] -> no_results (JObj [("results", JArr elems)]) = Normal false.
Proof.
  destruct elems as [ | x rest ]; [ congruence | reflexivity ].
Qed.

Lemma get_results_array elems :
  get (JObj [("results", JArr elems)]) "results" = Normal (JArr elems).
Proof. reflexivity. Qed.

(** X8. [get_product_details] looks at the first hit only: with any
    further hits after it, well formed or not, the outcome is the one
    the first hit alone would give. *)
Theorem details_use_first_hit_only product_name rt x rest :
  autorag rt (request_of (GetProductDetails product_name))
  = Resolved (JObj [("results", JArr (x :: rest))]) ->
  snd (invoke (GetProductDetails product_name) rt)
  = snd (invoke (GetProductDetails product_name)
           (always (Resolved (JObj [("results", JArr [x])]))
              (type_error_message rt))).
Proof.
  intros Hres. simpl in *. unfold get_product_details.
  rewrite (await_resolved_snd _ _ _ _ _ Hres).
  rewrite (await_resolved_snd _ _ _
             (always (Resolved (JObj [("results", JArr [x])]))
                (type_error_message rt))
             (JObj [("results", JArr [x])]) eq_refl).
  rewrite !bind_lift, !no_results_of_array. cbv iota.
  rewrite !bind_lift, !get_results_array. cbv iota.
  rewrite !bind_lift.
  change (get_index (JArr (x :: rest)) 0) with (Normal x).
  change (get_index (JArr [x]) 0) with (Normal x).
  cbv iota. rewrite !bind_lift.
  destruct (Callback.details x) as [ d | t ]; cbn [snd ret].
  - reflexivity.
  - rewrite !report_run. destruct t; reflexivity.
Qed.

Lemma details_use_first_hit_only_witness :
  snd (invoke (GetProductDetails "stew")
         (always (Resolved (JObj [("results",
                                   JArr [Item.to_value bare_item; JNull])]))
            plain_messages))
  = snd (invoke (GetProductDetails "stew")
           (always (Resolved (JObj [("results",
                                     JArr [Item.to_value bare_item])]))
              plain_messages)).
Proof.
  apply (details_use_first_hit_only "stew"
           (always (Resolved (JObj [("results",
                                     JArr [Item.to_value bare_item; JNull])]))
              plain_messages)
           (Item.to_value bare_item) [JNull]).
  reflexivity.
Defined.

Lemma map_from_stops {A : Type} (callback : value -> nat -> completion A)
  before x rest t :
  forall start ys,
    map_from start callback before = Normal ys ->
    callback x (start + List.length before) = Throw t ->
    map_from start callback (before ++ x :: rest) = Throw t.
Proof.
  induction before as [ | y before IH ]; intros start ys Hbefore Hx; simpl in *.
  - rewrite Nat.add_0_r in Hx. rewrite Hx. reflexivity.
  - destruct (callback y start) as [ y' | t' ]; simpl in *; [ | discriminate ].
    destruct (map_from (S start) callback before) as [ ys' | t' ] eqn:Hrest;
      simpl in *; [ | discriminate ].
    rewrite (IH (S start) ys' Hrest); [ reflexivity | ].
    rewrite <- Hx. f_equal. lia.
Qed.

Lemma callbacks_on_nullish x index :
  x = JUndefined \/ x = JNull ->
  Callback.search_products x index
  = Throw (EngineError (ReadOfNullish x "title"))
  /\ Callback.find_dietary_options x index
     = Throw (EngineError (ReadOfNullish x "title"))
  /\ Callback.get_recommendations x index
     = Throw (EngineError (ReadOfNullish x "title")).
Proof. intros [ -> | -> ]; repeat split; reflexivity. Qed.

(** X10. One [null] or [undefined] among the hits spoils a whole
    listing: [search_products], [find_dietary_options] and
    [get_recommendations] then answer with their error prefix and the
    engine's message for reading [title] off that hit, and list none of
    the well-formed hits before or after it. *)
Theorem nullish_hit_spoils_listing call rt items x rest :
  match call with GetProductDetails _ => False | _ => True end ->
  autorag rt (request_of call)
  = Resolved (JObj [("results",
                     JArr (map Item.to_value items ++ x :: rest)%list)]) ->
  x = JUndefined \/ x = JNull ->
  snd (invoke call rt)
  = Normal (text_response
              (error_prefix call
                 ++ type_error_message rt (ReadOfNullish x "title"))).
Proof.
  intros Hcall Hres Hx.
  assert (Hnonempty : (map Item.to_value items ++ x :: rest)%list <> [])
    by (destruct items; discriminate).
  destruct (callbacks_on_nullish x (0 + List.length (map Item.to_value items))
              Hx) as (H1 & H2 & H3).
  destruct call as [ query max_results | product_name
                   | dietary_restriction meal_type | occasion preferences ];
    try contradiction; simpl in *;
    [ unfold search_products | unfold find_dietary_options
    | unfold get_recommendations ];
    cbv zeta;
    rewrite (await_resolved_snd _ _ _ _ _ Hres);
    rewrite bind_lift, (no_results_of_nonempty _ Hnonempty); cbv iota;
    rewrite bind_lift, get_results_array; cbv iota;
    rewrite bind_lift; unfold call_map.
  - rewrite (map_from_stops _ _ _ _ _ 0 _
               (map_from_items _ _ search_products_callback_line items 0) H1).
    cbn [snd]. rewrite report_run. reflexivity.
  - rewrite (map_from_stops _ _ _ _ _ 0 _
               (map_from_items _ _ find_dietary_options_callback_line items 0)
               H2).
    cbn [snd]. rewrite report_run. reflexivity.
  - rewrite (map_from_stops _ _ _ _ _ 0 _
               (map_from_items _ _ get_recommendations_callback_line items 0)
               H3).
    cbn [snd]. rewrite report_run. reflexivity.
Qed.

Lemma nullish_hit_spoils_listing_witness :
  snd (invoke (SearchProducts "stew" (Some 5%Z))
         (always (Resolved
                    (JObj [("results",
                            JArr (map Item.to_value [bare_item]
                                    ++ JNull :: [Item.to_value bare_item])%list)]))
            plain_messages))
  = Normal (text_response
              ("Error searching products: "
                 ++ plain_messages (ReadOfNullish JNull "title"))).
Proof.
  apply (nullish_hit_spoils_listing (SearchProducts "stew" (Some 5%Z))
           (always (Resolved
                      (JObj [("results",
                              JArr (map Item.to_value [bare_item]
                                      ++ JNull :: [Item.to_value bare_item])%list)]))
              plain_messages)
           [bare_item] JNull [Item.to_value bare_item]);
    [ exact I | reflexivity | right; reflexivity ].
Defined.

(** X11. When [results] is present and passes the emptiness test but
    is not an array - a string, a number, an object - the three listing
    tools answer with their error prefix and the engine's message for
    calling [results.results.map], which is no function. *)
Theorem results_not_an_array_text call rt v rows :
  match call with GetProductDetails _ => False | _ => True end ->
  autorag rt (request_of call) = Resolved v ->
  no_results v = Normal false ->
  get v "results" = Normal rows ->
  match rows with JArr _ => False | _ => True end ->
  snd (invoke call rt)
  = Normal (text_response
              (error_prefix call
                 ++ type_error_message rt (NotAFunction "results.results.map"))).
Proof.
  intros Hcall Hres Hnone Hrows Hshape.
  assert (Hmap : forall (f : value -> nat -> completion string),
             call_map "results.results.map" rows f
             = Throw (EngineError (NotAFunction "results.results.map")))
    by (intros f; destruct rows; try contradiction; reflexivity).
  destruct call as [ query max_results | product_name
                   | dietary_restriction meal_type | occasion preferences ];
    try contradiction; simpl in *;
    [ unfold search_products | unfold find_dietary_options
    | unfold get_recommendations ];
    cbv zeta;
    rewrite (await_resolved_snd _ _ _ _ _ Hres);
    rewrite bind_lift, Hnone; cbv iota;
    rewrite bind_lift, Hrows; cbv iota;
    rewrite bind_lift, Hmap; cbn [snd]; rewrite report_run; reflexivity.
Qed.

Lemma results_not_an_array_text_witness :
  snd (invoke (GetRecommendations "birthday" None)
         (always (Resolved (JObj [("results", JStr "none")])) plain_messages))
  = Normal (text_response
              ("Error getting recommendations: "
                 ++ plain_messages (NotAFunction "results.results.map"))).
Proof.
  apply (results_not_an_array_text (GetRecommendations "birthday" None)
           (always (Resolved (JObj [("results", JStr "none")])) plain_messages)
           (JObj [("results", JStr "none")]) (JStr "none"));
    first [ exact I | reflexivity ].
Defined.

(** ** Listings *)

Lemma numbered_length line items start :
  List.length (numbered start line items) = List.length items.
Proof.
  revert start. induction items as [ | i rest IH ]; intros start; simpl;
    [ | rewrite IH ]; reflexivity.
Qed.

(** X9. A listing shows every hit the capability returned, in order,
    and its header counts them: the handlers do not cut the hits down
    to the limit they asked for.  [find_dietary_options] adds the meal
    type to the header and [get_recommendations] the preferences, when
    given and not empty. *)
Theorem listings_show_every_hit rt i rest :
  (forall query max_results,
      autorag rt (request_of (SearchProducts query max_results))
      = Resolved (search_response (i :: rest)) ->
      snd (invoke (SearchProducts query max_results) rt)
      = Normal (text_response
                  ("Found " ++ nat_to_string (List.length (i :: rest))
                     ++ " products:" ++ nl ++ nl
                     ++ join (nl ++ nl)
                          (numbered 0 Template.product_line (i :: rest)))))
  /\ (forall dietary_restriction meal_type,
         autorag rt (request_of (FindDietaryOptions dietary_restriction
                                   meal_type))
         = Resolved (search_response (i :: rest)) ->
         snd (invoke (FindDietaryOptions dietary_restriction meal_type) rt)
         = Normal (text_response
                     ("Found " ++ nat_to_string (List.length (i :: rest))
                        ++ " " ++ dietary_restriction ++ " products"
                        ++ match meal_type with
                           | Some m => if m =? EmptyString then EmptyString
                                       else " for " ++ m
                           | None => EmptyString
                           end
                        ++ ":" ++ nl ++ nl
                        ++ join (nl ++ nl)
                             (numbered 0 Template.dietary_line (i :: rest)))))
  /\ (forall occasion preferences,
         autorag rt (request_of (GetRecommendations occasion preferences))
         = Resolved (search_response (i :: rest)) ->
         snd (invoke (GetRecommendations occasion preferences) rt)
         = Normal (text_response
                     ("Top recommendations for " ++ occasion
                        ++ match preferences with
                           | Some p => if p =? EmptyString then EmptyString
                                       else " (" ++ p ++ ")"
                           | None => EmptyString
                           end
                        ++ ":" ++ nl ++ nl
                        ++ join (nl ++ nl)
                             (numbered 0
                                (Template.recommendation_line EmptyString)
                                (i :: rest)))))
  /\ (forall line,
         List.length (numbered 0 line (i :: rest)) = List.length (i :: rest)).
Proof.
  repeat split.
  - intros query max_results Hres. simpl in *.
    rewrite (search_products_found _ _ _ _ _ Hres). reflexivity.
  - intros dietary_restriction meal_type Hres. simpl in *.
    rewrite (find_dietary_options_found _ _ _ _ _ Hres).
    destruct meal_type as [ m | ]; simpl; [ | reflexivity ].
    destruct (m =? EmptyString); reflexivity.
  - intros occasion preferences Hres. simpl in *.
    rewrite (get_recommendations_found _ _ _ _ _ Hres).
    destruct preferences as [ p | ]; simpl; [ | reflexivity ].
    destruct (p =? EmptyString); reflexivity.
  - intros line. apply numbered_length.
Qed.

Lemma listings_show_every_hit_witness :
  snd (invoke (SearchProducts "stew" (Some 1%Z))
         (always (Resolved (search_response [bare_item; bare_item]))
            plain_messages))
  = Normal (text_response
              ("Found " ++ nat_to_string (List.length [bare_item; bare_item])
                 ++ " products:" ++ nl ++ nl
                 ++ join (nl ++ nl)
                      (numbered 0 Template.product_line
                         [bare_item; bare_item]))).
Proof.
  apply (proj1 (listings_show_every_hit
                  (always (Resolved (search_response [bare_item; bare_item]))
                     plain_messages)
                  bare_item [bare_item])).
  reflexivity.
Defined.

Lemma prefix_append (a b : string) : String.prefix a (a ++ b) = true.
Proof.
  induction a as [ | c a IH ]; simpl; [ destruct b; reflexivity | ].
  destruct (ascii_dec c c) as [ _ | Hc ]; [ exact IH | congruence ].
Qed.

Lemma numbered_prefix n rest :
  String.prefix (nat_to_string n ++ ". ") (nat_to_string n ++ ". " ++ rest)
  = true.
Proof. rewrite <- append_assoc. apply prefix_append. Qed.

Ltac run_callback H :=
  repeat match type of H with
    | context [ cbind ?c _ ] =>
        destruct c; cbn [cbind] in H; try discriminate H
    | context [ if ?b then _ else _ ] => destruct b
    end.

(** X12. Whatever value a hit is, the line a listing gives it begins
    with its position counted from 1, a full stop and a space. *)
Theorem lines_are_numbered_from_one item index line :
  Callback.search_products item index = Normal line
  \/ Callback.find_dietary_options item index = Normal line
  \/ Callback.get_recommendations item index = Normal line ->
  String.prefix (nat_to_string (index + 1) ++ ". ") line = true.
Proof.
  intros [ H | [ H | H ] ];
    [ unfold Callback.search_products in H
    | unfold Callback.find_dietary_options in H
    | unfold Callback.get_recommendations in H ];
    cbv zeta in H; run_callback H;
    inversion H; apply numbered_prefix.
Qed.

Lemma lines_are_numbered_from_one_witness :
  String.prefix (nat_to_string (4 + 1) ++ ". ")
    ("5. 42" ++ nl ++ "   N/A") = true.
Proof.
  apply (lines_are_numbered_from_one (JObj [("title", JNum 42)]) 4).
  right; left. reflexivity.
Defined.



(** X13. The description [get_product_details] shows is the content
    of the first hit when it has one that is not empty, otherwise its
    snippet when that is not empty, otherwise "No description
    available". *)
Theorem description_precedence product_name rt i rest :
  autorag rt (request_of (GetProductDetails product_name))
  = Resolved (search_response (i :: rest)) ->
  exists description,
    snd (invoke (GetProductDetails product_name) rt)
    = Normal (text_response
                ("Product: " ++ Item.shown (Item.title i) "Untitled" ++ nl
                   ++ "URL: " ++ Item.shown (Item.url i) "N/A" ++ nl ++ nl
                   ++ "Description:" ++ nl ++ description))
    /\ (forall c, Item.content i = Some c -> c <> EmptyString ->
                  description = c)
    /\ (Item.content i = None \/ Item.content i = Some EmptyString ->
        forall s, Item.snippet i = Some s -> s <> EmptyString ->
                  description = s)
    /\ (Item.content i = None \/ Item.content i = Some EmptyString ->
        Item.snippet i = None \/ Item.snippet i = Some EmptyString ->
        description = "No description available").
Proof.
  intros Hres. simpl in *.
  rewrite (get_product_details_found _ _ _ _ Hres).
  eexists. split; [ reflexivity | ].
  unfold Item.shown. repeat split.
  - intros c -> Hc. apply String.eqb_neq in Hc. rewrite Hc. reflexivity.
  - intros [ -> | -> ] s -> Hs; apply String.eqb_neq in Hs; simpl;
      rewrite Hs; reflexivity.
  - intros [ -> | -> ] [ -> | -> ]; reflexivity.
Qed.

Lemma description_precedence_witness :
  exists description,
    snd (invoke (GetProductDetails "stew")
           (always (Resolved
                      (search_response
                         [ {| Item.title := Some "Lentil Stew";
                              Item.url := None;
                              Item.snippet := Some "A short note";
                              Item.content := Some EmptyString |} ]))
              plain_messages))
    = Normal (text_response
                ("Product: " ++ "Lentil Stew" ++ nl
                   ++ "URL: " ++ "N/A" ++ nl ++ nl
                   ++ "Description:" ++ nl ++ description))
    /\ description = "A short note".
Proof.
  destruct (description_precedence "stew"
              (always (Resolved
                         (search_response
                            [ {| Item.title := Some "Lentil Stew";
                                 Item.url := None;
                                 Item.snippet := Some "A short note";
                                 Item.content := Some EmptyString |} ]))
                 plain_messages)
              {| Item.title := Some "Lentil Stew"; Item.url := None;
                 Item.snippet := Some "A short note";
                 Item.content := Some EmptyString |} [] eq_refl)
    as (description & Htext & _ & Hsnippet & _).
  exists description. split; [ exact Htext | ].
  apply Hsnippet; [ right; reflexivity | reflexivity | discriminate ].
Defined.

(** ** The schema layer *)

(** X15. A call whose arguments are the required strings and, where
    given, the optional parameters passes its schema and runs the
    handler of its tool on them; a [max_results] left out reaches the
    handler as 10. *)
Theorem valid_call_reaches_handler call :
  Mcp.call_tool (tool_name call) (Mcp.arguments_of call)
  = Mcp.Run (invoke call).
Proof.
  destruct call as [ query [ n | ] | product_name
                   | dietary_restriction [ m | ] | occasion [ p | ] ];
    reflexivity.
Qed.

(** X16. When the required string of a tool is missing from the
    arguments, or is not a string, the schema rejects them and the
    handler does not run. *)
Theorem required_string_enforced tool_name key props :
  In (tool_name, key)
    [ ("search_products", "query");
      ("get_product_details", "product_name");
      ("find_dietary_options", "dietary_restriction");
      ("get_recommendations", "occasion") ] ->
  (forall s, Zod.field props key <> JStr s) ->
  Mcp.call_tool tool_name (JObj props) = Mcp.InvalidArguments.
Proof.
  intros Hin Hkey. unfold Mcp.call_tool.
  simpl in Hin.
  destruct Hin as [ H | [ H | [ H | [ H | [] ] ] ] ]; inversion H; subst;
    cbn [find Mcp.tools Mcp.name Mcp.shape String.eqb Ascii.eqb Bool.eqb
           Zod.parse_object Zod.parse_shape Zod.parse];
    match goal with
    | |- context [ Zod.field props ?k ] =>
        destruct (Zod.field props k) eqn:E; try reflexivity;
        exfalso; eapply Hkey; reflexivity
    end.
Qed.

Lemma required_string_enforced_witness :
  Mcp.call_tool "get_product_details" (JObj [("product_name", JNum 7)])
  = Mcp.InvalidArguments.
Proof.
  apply (required_string_enforced "get_product_details" "product_name"
           [("product_name", JNum 7)]).
  - simpl. right; left. reflexivity.
  - intros s H. discriminate H.
Defined.

(** X18. An optional parameter is either left out or well typed: any
    other value for [max_results], [meal_type] or [preferences] -
    [null] included - makes the schema reject the arguments; it is
    neither dropped nor replaced by the default. *)
Theorem optional_parameter_typed props required v :
  match v with JUndefined => False | _ => True end ->
  (Zod.field props "query" = JStr required ->
   Zod.field props "max_results" = v ->
   match v with JNum _ => False | _ => True end ->
   Mcp.call_tool "search_products" (JObj props) = Mcp.InvalidArguments)
  /\ (Zod.field props "dietary_restriction" = JStr required ->
      Zod.field props "meal_type" = v ->
      match v with JStr _ => False | _ => True end ->
      Mcp.call_tool "find_dietary_options" (JObj props)
      = Mcp.InvalidArguments)
  /\ (Zod.field props "occasion" = JStr required ->
      Zod.field props "preferences" = v ->
      match v with JStr _ => False | _ => True end ->
      Mcp.call_tool "get_recommendations" (JObj props)
      = Mcp.InvalidArguments).
Proof.
  intros Hdefined. repeat split; intros Hreq Hopt Htype;
    unfold Mcp.call_tool;
    cbn [find Mcp.tools Mcp.name Mcp.shape String.eqb Ascii.eqb Bool.eqb
           Zod.parse_object Zod.parse_shape Zod.parse];
    rewrite Hreq, Hopt; destruct v; try contradiction; reflexivity.
Qed.

Lemma optional_parameter_typed_witness :
  Mcp.call_tool "search_products"
    (JObj [("query", JStr "stew"); ("max_results", JNull)])
  = Mcp.InvalidArguments.
Proof.
  apply (proj1 (optional_parameter_typed
                  [("query", JStr "stew"); ("max_results", JNull)]
                  "stew" JNull I));
    first [ reflexivity | exact I ].
Defined.

Lemma own_app props extra key :
  own (props ++ extra)%list key
  = match own props key with
    | Some v => Some v
    | None => own extra key
    end.
Proof.
  induction props as [ | [ k v ] props IH ]; simpl; [ reflexivity | ].
  destruct (k =? key); [ reflexivity | exact IH ].
Qed.

Lemma parse_shape_agree shape props props' :
  (forall key, In key (map fst shape) ->
               Zod.field props key = Zod.field props' key) ->
  Zod.parse_shape shape props = Zod.parse_shape shape props'.
Proof.
  induction shape as [ | [ key s ] shape IH ]; intros Hsame; simpl;
    [ reflexivity | ].
  rewrite (Hsame key) by (left; reflexivity).
  rewrite IH by (intros k Hk; apply Hsame; right; exact Hk).
  reflexivity.
Qed.

(** X17. Properties the schemas do not name are ignored: arguments
    carrying further keys are treated exactly as without them. *)
Theorem unknown_arguments_ignored tool_name props extra :
  (forall key, In key Mcp.parameter_names -> own extra key = None) ->
  Mcp.call_tool tool_name (JObj (props ++ extra)%list)
  = Mcp.call_tool tool_name (JObj props).
Proof.
  intros Hextra. unfold Mcp.call_tool.
  destruct (find (fun t => Mcp.name t =? tool_name) Mcp.tools) as [ t | ]
    eqn:Hfind; [ | reflexivity ].
  apply find_some in Hfind. destruct Hfind as [ Ht _ ].
  unfold Zod.parse_object.
  rewrite (parse_shape_agree (Mcp.shape t) (props ++ extra)%list props);
    [ reflexivity | ].
  intros key Hkey. unfold Zod.field. rewrite own_app.
  destruct (own props key); [ reflexivity | ].
  rewrite Hextra; [ reflexivity | ].
  unfold Mcp.parameter_names. apply in_flat_map. exists t. split; assumption.
Qed.

Lemma unknown_arguments_ignored_witness :
  Mcp.call_tool "get_recommendations"
    (JObj ([("occasion", JStr "birthday")] ++ [("budget", JNum 40)])%list)
  = Mcp.call_tool "get_recommendations" (JObj [("occasion", JStr "birthday")]).
Proof.
  apply (unknown_arguments_ignored "get_recommendations"
           [("occasion", JStr "birthday")] [("budget", JNum 40)]).
  intros key Hkey. simpl in Hkey.
  repeat (destruct Hkey as [ <- | Hkey ]; [ reflexivity | ]).
  contradiction.
Defined.

(** X20. No handler runs, and so no request reaches the capability,
    when the name is not that of a registered tool or the arguments
    are not an object. *)
Theorem no_handler_without_tool_or_object tool_name arguments :
  ~ In tool_name (map Mcp.name Mcp.tools)
  \/ match arguments with JObj _ => False | _ => True end ->
  forall h, Mcp.call_tool tool_name arguments <> Mcp.Run h.
Proof.
  intros Hbad h. unfold Mcp.call_tool.
  destruct (find (fun t => Mcp.name t =? tool_name) Mcp.tools) as [ t | ]
    eqn:Hfind; [ | discriminate ].
  apply find_some in Hfind. destruct Hfind as [ Ht Hname ].
  apply String.eqb_eq in Hname.
  destruct Hbad as [ Hunknown | Hshape ].
  - exfalso. apply Hunknown. rewrite <- Hname. apply in_map. exact Ht.
  - destruct arguments; try contradiction; discriminate.
Qed.

Lemma no_handler_without_tool_or_object_witness :
  Mcp.call_tool "search_products" (JArr [JStr "stew"])
  <> Mcp.Run (invoke (SearchProducts "stew" None)).
Proof.
  apply (no_handler_without_tool_or_object "search_products"
           (JArr [JStr "stew"])).
  right. exact I.
Defined.

(** ** Routes *)

(** X19. Routes are matched whole: a path that continues "/mcp" or
    "/health" is not found, and neither is one that continues "/sse",
    unless it is "/sse/message". *)
Theorem routes_match_whole_paths tail :
  tail <> EmptyString ->
  fetch ("/mcp" ++ tail)
  = Reply (new_Response (Some "Not found") (Some 404%Z) [])
  /\ fetch ("/health" ++ tail)
     = Reply (new_Response (Some "Not found") (Some 404%Z) [])
  /\ (tail <> "/message" ->
      fetch ("/sse" ++ tail)
      = Reply (new_Response (Some "Not found") (Some 404%Z) [])).
Proof.
  intros Htail. repeat split; [ | | intros Hmessage ];
    apply fetch_not_found; simpl; intros H; inversion H; congruence.
Qed.

Lemma routes_match_whole_paths_witness :
  fetch ("/mcp" ++ "/session")
  = Reply (new_Response (Some "Not found") (Some 404%Z) []).
Proof.
  apply (proj1 (routes_match_whole_paths "/session"
                  ltac:(discriminate))).
Defined.

(** Arguments the schema accepts always reach the handler: the only
    way to [InvalidArguments] is a rejection by the schema. *)
Lemma accepted_arguments_run t props args :
  In t Mcp.tools ->
  Zod.parse_shape (Mcp.shape t) props = Some args ->
  exists h, Mcp.handle t args = Some h.
Proof.
  intros Ht Hparse. simpl in Ht.
  destruct Ht as [ <- | [ <- | [ <- | [ <- | [] ] ] ] ];
    cbn [Mcp.shape Mcp.handle Zod.parse_shape Zod.parse] in *;
    repeat match type of Hparse with
      | context [ match Zod.field props ?k with _ => _ end ] =>
          destruct (Zod.field props k); try discriminate Hparse
      end;
    inversion Hparse; subst; cbn; eauto.
Qed.

(** X21. [max_results] is not bounded: zero, a negative number or a
    very large one passes the schema, and the handler forwards it to
    the capability as it is. *)
Theorem max_results_forwarded_unchecked query n rt :
  exists h,
    Mcp.call_tool "search_products"
      (JObj [("query", JStr query); ("max_results", JNum n)])
    = Mcp.Run h
    /\ fst (h rt)
       = [ {| index := "cool-bush-e0f4"; query := query; maxResults := n |} ].
Proof.
  exists (invoke (SearchProducts query (Some n))). split.
  - reflexivity.
  - destruct (invoke_run (SearchProducts query (Some n))) as (k & -> & Hk).
    rewrite run_after_await by assumption. reflexivity.
Qed.
